(** * The notebook embedding example: a model of [JupyterLab.createApp]

    The example wires a notebook widget, a command registry, a command
    palette and a keymap into a host page.  Everything below follows the
    example's entry module, the class [JupyterLab]: the table of command
    ids, the constructor, [embedJupyterLabUI], and [createApp] statement by
    statement.

    The toolkit classes ([CommandRegistry], [Keymap], [RenderMime], ...) are
    not modelled beyond what the example does with them: a call into the
    toolkit is recorded in a trace, and the containers the example fills
    (commands, bindings, palette items, the mime-type map, the split panel)
    are kept as data.  Arrow functions of the source are first-order values
    of type [Closure], run by [call]. *)

From Stdlib Require Import String List.
From stdpp Require Import base strings list gmap.
Import ListNotations.
Local Open Scope string_scope.
Local Open Scope list_scope.

(** ** The map of command ids used by the notebook *)

Module cmdIds.
Definition save := "notebook:save".
Definition interrupt := "notebook:interrupt-kernel".
Definition restart := "notebook:restart-kernel".
Definition switchKernel := "notebook:switch-kernel".
Definition runAndAdvance := "notebook-cells:run-and-advance".
Definition deleteCell := "notebook-cells:delete".
Definition selectAbove := "notebook-cells:select-above".
Definition selectBelow := "notebook-cells:select-below".
Definition extendAbove := "notebook-cells:extend-above".
Definition extendBelow := "notebook-cells:extend-below".
Definition editMode := "notebook:edit-mode".
Definition merge := "notebook-cells:merge".
Definition split := "notebook-cells:split".
Definition commandMode := "notebook:command-mode".
Definition undo := "notebook-cells:undo".
Definition redo := "notebook-cells:redo".

(** The values of the object, in declaration order. *)
Definition values : list string :=
  [ save; interrupt; restart; switchKernel; runAndAdvance; deleteCell;
    selectAbove; selectBelow; extendAbove; extendBelow; editMode; merge;
    split; commandMode; undo; redo ].
End cmdIds.

(** ** Data *)

(** [IAjaxSettings] and kernels are handed through untouched; a name is all
    the example ever needs of them. *)
Definition IAjaxSettings : Type := string.
Definition IKernel : Type := string.

(** [IServiceManager.IOptions]: both fields are optional. *)
Record IOptions := {
  ajaxSettings : option IAjaxSettings;
  baseUrl : option string
}.

Inductive IServiceManager := ServiceManager (options : IOptions).

(** The fields of a [JupyterLab] instance. *)
Record JupyterLab := {
  NOTEBOOK : string;
  div_id : string;
  serviceManagerOptions : IOptions
}.

(** The seven renderer classes imported from [jupyterlab/lib/renderers]. *)
Inductive Renderer :=
| JavascriptRenderer | MarkdownRenderer | HTMLRenderer | ImageRenderer
| SVGRenderer | LatexRenderer | TextRenderer.

Inductive Sanitizer := defaultSanitizer.

(** The classes [createApp] instantiates with [new]. *)
Inductive Class :=
| CommandRegistry | Keymap | Transformer (r : Renderer) | RenderMime
| DocumentRegistry | DocumentManager (manager : IServiceManager)
| NotebookModelFactory | MimeData
| NotebookWidgetFactory | CommandPalette | SplitPanel.

(** The widgets [createApp] holds in local variables. *)
Inductive Widget := w_palette | w_nbWidget | w_panel.

(** The arrow functions of the source, one constructor per function. *)
Inductive Closure :=
| on_keydown          (* event => { keymap.processKeydownEvent(event); } *)
| on_resize           (* () => panel.update() *)
| run_save | run_interrupt | run_restart | run_switchKernel
| run_runAndAdvance | run_editMode | run_commandMode | run_selectBelow
| run_selectAbove | run_extendAbove | run_extendBelow | run_merge
| run_split | run_undo | run_redo.

(** Options of [commands.addCommand]. *)
Record Command := { label : string; execute : Closure }.

(** A key binding, as passed to [keymap.addBinding]. *)
Record Binding := {
  selector : string;
  keys : list string;
  command : string
}.

(** Options of [palette.addItem]. *)
Module Item.
Record t := make { command : string; category : string }.
End Item.

(** Options of [docRegistry.addWidgetFactory]. *)
Record WidgetFactoryOptions := {
  displayName : string;
  modelName : string;
  fileExtensions : list string;
  defaultFor : list string;
  preferKernel : bool;
  canStartKernel : bool
}.

(** Options of [new RenderMime]. *)
Record RenderMimeOptions := {
  renderers : gmap string Renderer;
  order : list string;
  sanitizer : Sanitizer
}.

(** The split panel: the three properties the example assigns, and the
    children added with [addWidget]. *)
Record Panel := {
  panel_id : string;
  orientation : string;
  spacing : nat;
  widgets : list Widget
}.

(** What the example reads and writes of the opened notebook widget. *)
Record NotebookPanel := {
  context_kernel : option IKernel;     (* nbWidget.context.kernel *)
  kernel : option IKernel;             (* nbWidget.kernel *)
  content_mode : string                (* nbWidget.content.mode *)
}.

(** Calls into the toolkit and the browser, in the order they are made. *)
Inductive Call :=
| createServiceManager (options : IOptions)
| New (c : Class)
| addEventListener (type : string) (listener : Closure) (useCapture : bool)
| addModelFactory
| addWidgetFactory (options : WidgetFactoryOptions)
| docManager_open (path : string)
| setStretch (w : Widget) (n : nat)
| addWidget (w : Widget)
| Widget_attach (w : Widget) (host : string)
| addCommand (id : string) (options : Command)
| addItem (options : Item.t)
| addBinding (b : Binding)
| processKeydownEvent
| panel_update
| context_save
| kernel_interrupt (k : IKernel)
| restartKernel (k : option IKernel)
| selectKernelForContext
| NotebookActions_runAndAdvance (k : option IKernel)
| NotebookActions_selectBelow
| NotebookActions_selectAbove
| NotebookActions_extendSelectionAbove
| NotebookActions_extendSelectionBelow
| NotebookActions_mergeCells
| NotebookActions_splitCell
| NotebookActions_undo
| NotebookActions_redo.

(** The page: the controller instance, what the browser holds, what
    [createApp] built, the opened widget, and the calls made so far. *)
Record State := {
  this : JupyterLab;
  listeners : list (string * Closure * bool);   (* document listeners *)
  onresize : option Closure;                    (* window.onresize *)
  attached : list (Widget * string);            (* widget, host element id *)
  commands : gmap string Command;
  keymap : list Binding;
  rendermime : option RenderMimeOptions;
  palette : list Item.t;
  panel : option Panel;
  nbWidget : option NotebookPanel;
  trace : list Call
}.

(** An asynchronous result, as seen by [then]. *)
Inductive Promise (A : Type) :=
| fulfilled (value : A)
| rejected (reason : string)
| pending.
Arguments fulfilled {A} value.
Arguments rejected {A} reason.
Arguments pending {A}.

(** ** Field updates *)

Definition set_listeners (v : list (string * Closure * bool)) (s : State) : State :=
  {| this := this s; listeners := v; onresize := onresize s;
     attached := attached s; commands := commands s; keymap := keymap s;
     rendermime := rendermime s; palette := palette s; panel := panel s;
     nbWidget := nbWidget s; trace := trace s |}.

Definition set_onresize (v : option Closure) (s : State) : State :=
  {| this := this s; listeners := listeners s; onresize := v;
     attached := attached s; commands := commands s; keymap := keymap s;
     rendermime := rendermime s; palette := palette s; panel := panel s;
     nbWidget := nbWidget s; trace := trace s |}.

Definition set_attached (v : list (Widget * string)) (s : State) : State :=
  {| this := this s; listeners := listeners s; onresize := onresize s;
     attached := v; commands := commands s; keymap := keymap s;
     rendermime := rendermime s; palette := palette s; panel := panel s;
     nbWidget := nbWidget s; trace := trace s |}.

Definition set_commands (v : gmap string Command) (s : State) : State :=
  {| this := this s; listeners := listeners s; onresize := onresize s;
     attached := attached s; commands := v; keymap := keymap s;
     rendermime := rendermime s; palette := palette s; panel := panel s;
     nbWidget := nbWidget s; trace := trace s |}.

Definition set_keymap (v : list Binding) (s : State) : State :=
  {| this := this s; listeners := listeners s; onresize := onresize s;
     attached := attached s; commands := commands s; keymap := v;
     rendermime := rendermime s; palette := palette s; panel := panel s;
     nbWidget := nbWidget s; trace := trace s |}.

Definition set_rendermime (v : option RenderMimeOptions) (s : State) : State :=
  {| this := this s; listeners := listeners s; onresize := onresize s;
     attached := attached s; commands := commands s; keymap := keymap s;
     rendermime := v; palette := palette s; panel := panel s;
     nbWidget := nbWidget s; trace := trace s |}.

Definition set_palette (v : list Item.t) (s : State) : State :=
  {| this := this s; listeners := listeners s; onresize := onresize s;
     attached := attached s; commands := commands s; keymap := keymap s;
     rendermime := rendermime s; palette := v; panel := panel s;
     nbWidget := nbWidget s; trace := trace s |}.

Definition set_panel (v : option Panel) (s : State) : State :=
  {| this := this s; listeners := listeners s; onresize := onresize s;
     attached := attached s; commands := commands s; keymap := keymap s;
     rendermime := rendermime s; palette := palette s; panel := v;
     nbWidget := nbWidget s; trace := trace s |}.

Definition set_nbWidget (v : option NotebookPanel) (s : State) : State :=
  {| this := this s; listeners := listeners s; onresize := onresize s;
     attached := attached s; commands := commands s; keymap := keymap s;
     rendermime := rendermime s; palette := palette s; panel := panel s;
     nbWidget := v; trace := trace s |}.

(** Record one call. *)
Definition emit (c : Call) (s : State) : State :=
  {| this := this s; listeners := listeners s; onresize := onresize s;
     attached := attached s; commands := commands s; keymap := keymap s;
     rendermime := rendermime s; palette := palette s; panel := panel s;
     nbWidget := nbWidget s; trace := trace s ++ [c] |}.

Definition set_mode (m : string) (nb : NotebookPanel) : NotebookPanel :=
  {| context_kernel := context_kernel nb; kernel := kernel nb;
     content_mode := m |}.

(** Statements in sequence, first to last. *)
Definition block (stmts : list (State → State)) (s : State) : State :=
  foldl (λ acc stmt, stmt acc) s stmts.

(** [xs.forEach(f)], and [xs.map(f)] when the result is dropped. *)
Definition forEach {A} (xs : list A) (f : A → State → State) (s : State) : State :=
  foldl (λ acc x, f x acc) s xs.

(** ** Toolkit operations the example calls *)

(** [document.addEventListener(type, listener, useCapture)] *)
Definition document_addEventListener (type : string) (listener : Closure)
    (useCapture : bool) (s : State) : State :=
  emit (addEventListener type listener useCapture)
    (set_listeners (listeners s ++ [(type, listener, useCapture)]) s).

(** [commands.addCommand(id, options)].  What a registry does with an id
    that is already present does not matter here: the ids registered below
    are pairwise distinct (see [registered_ids_NoDup]). *)
Definition commands_addCommand (id : string) (options : Command) (s : State) : State :=
  emit (addCommand id options) (set_commands (<[id := options]> (commands s)) s).

(** [palette.addItem(options)] *)
Definition palette_addItem (options : Item.t) (s : State) : State :=
  emit (addItem options) (set_palette (palette s ++ [options]) s).

(** [keymap.addBinding(binding)] *)
Definition keymap_addBinding (b : Binding) (s : State) : State :=
  emit (addBinding b) (set_keymap (keymap s ++ [b]) s).

(** [panel.addWidget(w)] *)
Definition panel_addWidget (w : Widget) (s : State) : State :=
  emit (addWidget w)
    (set_panel
       ((λ p, {| panel_id := panel_id p; orientation := orientation p;
                 spacing := spacing p; widgets := widgets p ++ [w] |})
          <$> panel s) s).

(** [Widget.attach(w, document.getElementById(host))] *)
Definition Widget_attach_to (w : Widget) (host : string) (s : State) : State :=
  emit (Widget_attach w host) (set_attached (attached s ++ [(w, host)]) s).

(** ** The controller *)

Definition constructor (div_id notebook_name : string)
    (ajaxSettings : option IAjaxSettings) (baseUrl : option string) : JupyterLab :=
  {| NOTEBOOK := notebook_name;
     div_id := div_id;
     serviceManagerOptions := {| ajaxSettings := ajaxSettings; baseUrl := baseUrl |} |}.

Definition transformers : list Renderer :=
  [ JavascriptRenderer; MarkdownRenderer; HTMLRenderer; ImageRenderer;
    SVGRenderer; LatexRenderer; TextRenderer ].

(** The [bindings] array of [createApp]. *)
Definition bindings : list Binding :=
  [ {| selector := ".jp-Notebook"; keys := ["Shift Enter"];
       command := cmdIds.runAndAdvance |};
    {| selector := ".jp-Notebook"; keys := ["Accel S"];
       command := cmdIds.save |};
    {| selector := ".jp-Notebook.jp-mod-commandMode"; keys := ["I"; "I"];
       command := cmdIds.interrupt |};
    {| selector := ".jp-Notebook.jp-mod-commandMode"; keys := ["0"; "0"];
       command := cmdIds.restart |};
    {| selector := ".jp-Notebook.jp-mod-commandMode"; keys := ["Enter"];
       command := cmdIds.editMode |};
    {| selector := ".jp-Notebook.jp-mod-editMode"; keys := ["Escape"];
       command := cmdIds.commandMode |};
    {| selector := ".jp-Notebook.jp-mod-commandMode"; keys := ["Shift M"];
       command := cmdIds.merge |};
    {| selector := ".jp-Notebook.jp-mod-editMode"; keys := ["Ctrl Shift -"];
       command := cmdIds.split |};
    {| selector := ".jp-Notebook.jp-mod-commandMode"; keys := ["J"];
       command := cmdIds.selectBelow |};
    {| selector := ".jp-Notebook.jp-mod-commandMode"; keys := ["ArrowDown"];
       command := cmdIds.selectBelow |};
    {| selector := ".jp-Notebook.jp-mod-commandMode"; keys := ["K"];
       command := cmdIds.selectAbove |};
    {| selector := ".jp-Notebook.jp-mod-commandMode"; keys := ["ArrowUp"];
       command := cmdIds.selectAbove |};
    {| selector := ".jp-Notebook.jp-mod-commandMode"; keys := ["Shift K"];
       command := cmdIds.extendAbove |};
    {| selector := ".jp-Notebook.jp-mod-commandMode"; keys := ["Shift J"];
       command := cmdIds.extendBelow |};
    {| selector := ".jp-Notebook.jp-mod-commandMode"; keys := ["Z"];
       command := cmdIds.undo |};
    {| selector := ".jp-Notebook.jp-mod-commandMode"; keys := ["Y"];
       command := cmdIds.redo |} ].

(** Nothing exists on the page before [main] runs but the instance. *)
Definition page_load (jl : JupyterLab) : State :=
  {| this := jl; listeners := []; onresize := None; attached := [];
     commands := ∅; keymap := []; rendermime := None; palette := [];
     panel := None; nbWidget := None; trace := [] |}.

Section Toolkit.

(** Two facts come from toolkit modules outside this example: the
    mime-types each renderer class declares ([t.mimetypes]), and the state
    of the widget that [docManager.open] hands back. *)
Variable mimetypes : Renderer → list string.
Variable opened : string → NotebookPanel.

(** The nested loop that fills [renderers] and [order]. *)
Definition collect (ts : list Renderer) : gmap string Renderer * list string :=
  foldl (λ acc t,
           foldl (λ '(renderers, order) m,
                    (<[m := t]> renderers, order ++ [m]))
                 acc (mimetypes t))
        ((∅ : gmap string Renderer), ([] : list string)) ts.

Definition createApp (manager : IServiceManager) : State → State :=
  block [
    (* let commands = new CommandRegistry(); *)
    emit (New CommandRegistry); set_commands ∅;
    (* let keymap = new Keymap({ commands }); *)
    emit (New Keymap); set_keymap [];
    (* document.addEventListener('keydown', ..., useCapture); *)
    document_addEventListener "keydown" on_keydown true;
    (* const transformers = [ new JavascriptRenderer(), ... ]; *)
    forEach transformers (λ t, emit (New (Transformer t)));
    (* for (let t of transformers) for (let m of t.mimetypes) ...;
       let rendermime = new RenderMime({ renderers, order, sanitizer }); *)
    emit (New RenderMime);
    set_rendermime (Some {| renderers := (collect transformers).1;
                            order := (collect transformers).2;
                            sanitizer := defaultSanitizer |});
    (* let docRegistry = ...; let docManager = ...; the two factories *)
    emit (New DocumentRegistry);
    emit (New (DocumentManager manager));
    emit (New NotebookModelFactory);
    emit (New MimeData);
    emit (New NotebookWidgetFactory);
    emit addModelFactory;
    emit (addWidgetFactory
            {| displayName := "Notebook"; modelName := "notebook";
               fileExtensions := [".ipynb"]; defaultFor := [".ipynb"];
               preferKernel := true; canStartKernel := true |});
    (* let nbWidget = docManager.open(this.NOTEBOOK) as NotebookPanel; *)
    (λ s, emit (docManager_open (NOTEBOOK (this s)))
            (set_nbWidget (Some (opened (NOTEBOOK (this s)))) s));
    (* let palette = new CommandPalette({ commands, keymap }); *)
    emit (New CommandPalette); set_palette [];
    (* let panel = new SplitPanel(); panel.id = 'main';
       panel.orientation = 'horizontal'; panel.spacing = 0; *)
    emit (New SplitPanel);
    set_panel (Some {| panel_id := "main"; orientation := "horizontal";
                       spacing := 0; widgets := [] |});
    emit (setStretch w_palette 0);
    panel_addWidget w_palette;
    panel_addWidget w_nbWidget;
    (* Widget.attach(panel, document.getElementById(this.div_id)); *)
    (λ s, Widget_attach_to w_panel (div_id (this s)) s);
    emit (setStretch w_nbWidget 1);
    (* window.onresize = () => panel.update(); *)
    set_onresize (Some on_resize);

    commands_addCommand cmdIds.save
      {| label := "Save"; execute := run_save |};
    commands_addCommand cmdIds.interrupt
      {| label := "Interrupt"; execute := run_interrupt |};
    commands_addCommand cmdIds.restart
      {| label := "Restart Kernel"; execute := run_restart |};
    commands_addCommand cmdIds.switchKernel
      {| label := "Switch Kernel"; execute := run_switchKernel |};
    commands_addCommand cmdIds.runAndAdvance
      {| label := "Run and Advance"; execute := run_runAndAdvance |};
    commands_addCommand cmdIds.editMode
      {| label := "Edit Mode"; execute := run_editMode |};
    commands_addCommand cmdIds.commandMode
      {| label := "Command Mode"; execute := run_commandMode |};
    commands_addCommand cmdIds.selectBelow
      {| label := "Select Below"; execute := run_selectBelow |};
    commands_addCommand cmdIds.selectAbove
      {| label := "Select Above"; execute := run_selectAbove |};
    commands_addCommand cmdIds.extendAbove
      {| label := "Extend Above"; execute := run_extendAbove |};
    commands_addCommand cmdIds.extendBelow
      {| label := "Extend Below"; execute := run_extendBelow |};
    commands_addCommand cmdIds.merge
      {| label := "Merge Cells"; execute := run_merge |};
    commands_addCommand cmdIds.split
      {| label := "Split Cell"; execute := run_split |};
    commands_addCommand cmdIds.undo
      {| label := "Undo"; execute := run_undo |};
    commands_addCommand cmdIds.redo
      {| label := "Redo"; execute := run_redo |};

    (* let category = 'Notebook Operations'; [...].forEach(...) *)
    forEach [ cmdIds.interrupt; cmdIds.restart; cmdIds.editMode;
              cmdIds.commandMode; cmdIds.switchKernel ]
      (λ command, palette_addItem (Item.make command "Notebook Operations"));
    (* category = 'Notebook Cell Operations'; [...].forEach(...) *)
    forEach [ cmdIds.runAndAdvance; cmdIds.split; cmdIds.merge;
              cmdIds.selectAbove; cmdIds.selectBelow; cmdIds.extendAbove;
              cmdIds.extendBelow; cmdIds.undo; cmdIds.redo ]
      (λ command, palette_addItem (Item.make command "Notebook Cell Operations"));

    (* bindings.map(binding => keymap.addBinding(binding)); *)
    forEach bindings keymap_addBinding
  ].

(** [createServiceManager(options).then(manager => this.createApp(manager))]:
    the callback runs when, and only when, the promise is fulfilled. *)
Definition embedJupyterLabUI (result : Promise IServiceManager) (s : State) : State :=
  let s := emit (createServiceManager (serviceManagerOptions (this s))) s in
  match result with
  | fulfilled manager => createApp manager s
  | rejected _ => s
  | pending => s
  end.

(** [window.onload = main] *)
Definition main (result : Promise IServiceManager) : State :=
  embedJupyterLabUI result
    (page_load (constructor "jupyter-notebook-wrapper" "test.ipynb" None
                            (Some "http://localhost:8889"))).

End Toolkit.

(** ** Running the closures *)

Definition with_nbWidget (f : NotebookPanel → State → State) (s : State) : State :=
  match nbWidget s with
  | Some nb => f nb s
  | None => s
  end.

(** The body of each arrow function. *)
Definition call (c : Closure) : State → State :=
  match c with
  | on_keydown => emit processKeydownEvent
  | on_resize => emit panel_update
  | run_save => emit context_save
  | run_interrupt =>
      with_nbWidget (λ nb s,
        match context_kernel nb with
        | Some k => emit (kernel_interrupt k) s
        | None => s
        end)
  | run_restart => with_nbWidget (λ nb, emit (restartKernel (kernel nb)))
  | run_switchKernel => emit selectKernelForContext
  | run_runAndAdvance =>
      with_nbWidget (λ nb, emit (NotebookActions_runAndAdvance (context_kernel nb)))
  | run_editMode => with_nbWidget (λ nb, set_nbWidget (Some (set_mode "edit" nb)))
  | run_commandMode => with_nbWidget (λ nb, set_nbWidget (Some (set_mode "command" nb)))
  | run_selectBelow => emit NotebookActions_selectBelow
  | run_selectAbove => emit NotebookActions_selectAbove
  | run_extendAbove => emit NotebookActions_extendSelectionAbove
  | run_extendBelow => emit NotebookActions_extendSelectionBelow
  | run_merge => emit NotebookActions_mergeCells
  | run_split => emit NotebookActions_splitCell
  | run_undo => emit NotebookActions_undo
  | run_redo => emit NotebookActions_redo
  end.

(** What can happen on the page once [main] has returned. *)
Inductive Input :=
| keydown                                   (* a keydown event on the document *)
| resize                                    (* a resize event on the window *)
| execute_command (id : string)             (* commands.execute(id) *)
| toolkit (f : NotebookPanel → NotebookPanel).
                                            (* the toolkit changes the widget *)

Definition step (i : Input) (s : State) : State :=
  match i with
  | keydown =>
      forEach (listeners s)
        (λ '(type, listener, _), if String.eqb type "keydown" then call listener else λ s, s) s
  | resize =>
      match onresize s with
      | Some handler => call handler s
      | None => s
      end
  | execute_command id =>
      match commands s !! id with
      | Some cmd => call (execute cmd) s
      | None => s
      end
  | toolkit f => set_nbWidget (f <$> nbWidget s) s
  end.

Definition run (inputs : list Input) (s : State) : State :=
  foldl (λ acc i, step i acc) s inputs.

(** The states of a page whose backend connection was established. *)
Inductive reachable (mimetypes : Renderer → list string)
    (opened : string → NotebookPanel) (jl : JupyterLab)
    (manager : IServiceManager) : State → Prop :=
| reachable_mounted :
    reachable mimetypes opened jl manager
      (embedJupyterLabUI mimetypes opened (fulfilled manager) (page_load jl))
| reachable_step i s :
    reachable mimetypes opened jl manager s →
    reachable mimetypes opened jl manager (step i s).

(** The page right after [createApp] has returned. *)
Definition mounted (mimetypes : Renderer → list string)
    (opened : string → NotebookPanel) (jl : JupyterLab)
    (manager : IServiceManager) : State :=
  embedJupyterLabUI mimetypes opened (fulfilled manager) (page_load jl).

(** ** Observations used in the statements *)

(** Everything the controller built or holds, the widget's own state and the
    trace left out: the instance, the listeners, the resize handler, the
    attachments, the command table, the key bindings, the rendering
    registry, the palette items and the panel. *)
Definition controller (s : State) :=
  (this s, listeners s, onresize s, attached s, commands s, keymap s,
   rendermime s, palette s, panel s).

(** The ids passed to [addCommand] along a trace, in order. *)
Definition registered_ids (l : list Call) : list string :=
  omap (λ c, match c with addCommand id _ => Some id | _ => None end) l.

(** The classes instantiated along a trace, in order. *)
Definition constructed (l : list Call) : list Class :=
  omap (λ c, match c with New k => Some k | _ => None end) l.

(** The renderers of a list that declare mime-type [m], in list order. *)
Definition declaring (mimetypes : Renderer → list string) (m : string)
    (ts : list Renderer) : list Renderer :=
  filter (λ t, m ∈ mimetypes t) ts.

(** ** Sample inputs *)

(** A toolkit in which no two renderers declare the same mime-type. *)
Definition sample_mimetypes (r : Renderer) : list string :=
  match r with
  | JavascriptRenderer => ["text/javascript"; "application/javascript"]
  | MarkdownRenderer => ["text/markdown"]
  | HTMLRenderer => ["text/html"]
  | ImageRenderer => ["image/png"; "image/jpeg"; "image/gif"]
  | SVGRenderer => ["image/svg+xml"]
  | LatexRenderer => ["text/latex"]
  | TextRenderer => ["text/plain"]
  end.

(** A freshly opened notebook: no kernel yet, command mode. *)
Definition sample_opened (path : string) : NotebookPanel :=
  {| context_kernel := None; kernel := None; content_mode := "command" |}.

(** A notebook whose kernel is running. *)
Definition sample_opened_live (path : string) : NotebookPanel :=
  {| context_kernel := Some "k0"; kernel := Some "k0"; content_mode := "command" |}.

Definition sample_jl : JupyterLab :=
  constructor "jupyter-notebook-wrapper" "test.ipynb" None
              (Some "http://localhost:8889").

Definition sample_manager : IServiceManager :=
  ServiceManager (serviceManagerOptions sample_jl).

(** The page of [main] once the connection is there. *)
Definition sample_page : State :=
  main sample_mimetypes sample_opened (fulfilled sample_manager).

(** ** The claims, as worded *)

(** "The registry holds exactly 16 commands, one per command id." *)
Definition all_ids_registered (s : State) : Prop :=
  size (commands s) = 16 ∧
  ∀ id, id ∈ cmdIds.values → is_Some (commands s !! id).


(** "Executing any of the 16 command ids makes exactly one call and does
    nothing else." *)
Definition one_call_each (s : State) : Prop :=
  ∀ id, id ∈ cmdIds.values →
    ∃ c, trace (step (execute_command id) s) = trace s ++ [c] ∧
         controller (step (execute_command id) s) = controller s.

(** The place of the first call satisfying [P]; the length of the trace when
    there is none. *)
Fixpoint first_index (P : Call → bool) (l : list Call) : nat :=
  match l with
  | [] => 0
  | c :: l' => if P c then 0 else S (first_index P l')
  end.

(** A table "comes into being" either when its object is constructed or when
    its first entry is added; the stated order is tried under both readings,
    for each of the three tables. *)
Inductive Reading := constructing | filling.

Definition rendering_registry (c : Call) : bool :=
  match c with New RenderMime => true | _ => false end.

Definition document_registry (c : Call) : bool :=
  match c with New DocumentRegistry => true | _ => false end.

Definition document_widget (c : Call) : bool :=
  match c with docManager_open _ => true | _ => false end.

Definition command_table (r : Reading) (c : Call) : bool :=
  match r, c with
  | constructing, New CommandRegistry => true
  | filling, addCommand _ _ => true
  | _, _ => false
  end.

Definition palette_table (r : Reading) (c : Call) : bool :=
  match r, c with
  | constructing, New CommandPalette => true
  | filling, addItem _ => true
  | _, _ => false
  end.

Definition keybinding_table (r : Reading) (c : Call) : bool :=
  match r, c with
  | constructing, New Keymap => true
  | filling, addBinding _ => true
  | _, _ => false
  end.

Definition panel_attached (c : Call) : bool :=
  match c with Widget_attach w_panel _ => true | _ => false end.

(** "Rendering registry, then document registry/manager, then the document
    widget, then command registry and palette, then the keybinding table,
    and the panel attached last." *)
Definition stated_order (rc rp rk : Reading) (l : list Call) : Prop :=
  let pos P := first_index P l in
  pos rendering_registry < pos document_registry ∧
  pos document_registry < pos document_widget ∧
  pos document_widget < pos (command_table rc) ∧
  pos document_widget < pos (palette_table rp) ∧
  pos (command_table rc) < pos (keybinding_table rk) ∧
  pos (palette_table rp) < pos (keybinding_table rk) ∧
  pos (keybinding_table rk) < pos panel_attached ∧
  pos panel_attached < length l.

Definition readings : list (Reading * Reading * Reading) :=
  rc ← [constructing; filling];
  rp ← [constructing; filling];
  rk ← [constructing; filling];
  [(rc, rp, rk)].

(** ** Further observations *)

(** The calls only a closure makes: by the keydown listener, the resize
    handler, or a command's action. *)
Definition runtime_call (c : Call) : bool :=
  match c with
  | processKeydownEvent | panel_update | context_save | kernel_interrupt _
  | restartKernel _ | selectKernelForContext | NotebookActions_runAndAdvance _
  | NotebookActions_selectBelow | NotebookActions_selectAbove
  | NotebookActions_extendSelectionAbove | NotebookActions_extendSelectionBelow
  | NotebookActions_mergeCells | NotebookActions_splitCell
  | NotebookActions_undo | NotebookActions_redo => true
  | _ => false
  end.

(** The options of the connection attempts, the paths opened and the
    attachments made along a trace, in order. *)
Definition connection_attempts (l : list Call) : list IOptions :=
  omap (λ c, match c with createServiceManager o => Some o | _ => None end) l.

Definition opened_paths (l : list Call) : list string :=
  omap (λ c, match c with docManager_open p => Some p | _ => None end) l.

Definition attachments (l : list Call) : list (Widget * string) :=
  omap (λ c, match c with Widget_attach w h => Some (w, h) | _ => None end) l.

(** The command id a palette item or a key binding refers to. *)
Definition referenced (c : Call) : option string :=
  match c with
  | addItem options => Some (Item.command options)
  | addBinding b => Some (command b)
  | _ => None
  end.

(** Does every reference made along [l] name an id that is in [seen] or was
    registered earlier in [l]? *)
Fixpoint references_resolved (seen : list string) (l : list Call) : bool :=
  match l with
  | [] => true
  | c :: l' =>
      match referenced c with
      | Some id => bool_decide (id ∈ seen)
      | None => true
      end
      && references_resolved
           (match c with addCommand id _ => seen ++ [id] | _ => seen end) l'
  end.

(** ** Mounting that may be abandoned *)

(** [createApp] reaches its end only if the two calls that take the
    constructor's arguments return normally: [docManager.open(this.NOTEBOOK)]
    has to hand back a widget, and [Widget.attach] has to accept the element
    [document.getElementById(this.div_id)].  Whether they do is decided by the
    toolkit and by the document, outside this file: [opens path] and
    [accepts id] stand for these two facts.  When one of the calls throws, the
    rest of [createApp] is skipped; the page left behind is not described
    here, and the result is [None]. *)
Definition createApp_checked (mimetypes : Renderer → list string)
    (opened : string → NotebookPanel) (opens accepts : string → bool)
    (manager : IServiceManager) (s : State) : option State :=
  if opens (NOTEBOOK (this s)) && accepts (div_id (this s))
  then Some (createApp mimetypes opened manager s)
  else None.

(** [jl.embedJupyterLabUI()] on a fresh page, with the connection
    established: the page once the callback has returned, if it does. *)
Definition mounted_checked (mimetypes : Renderer → list string)
    (opened : string → NotebookPanel) (opens accepts : string → bool)
    (jl : JupyterLab) (manager : IServiceManager) : option State :=
  createApp_checked mimetypes opened opens accepts manager
    (emit (createServiceManager (serviceManagerOptions jl)) (page_load jl)).

(** The example's own page: one notebook to open, one element to attach to. *)
Definition sample_opens (path : string) : bool := String.eqb path "test.ipynb".
Definition sample_accepts (id : string) : bool :=
  String.eqb id "jupyter-notebook-wrapper".

(** ** Basic facts *)

Lemma block_nil s : block [] s = s.
Proof. reflexivity. Qed.

Lemma forEach_snoc {A} (xs : list A) (x : A) f s :
  forEach (xs ++ [x]) f s = f x (forEach xs f s).
Proof. unfold forEach. now rewrite foldl_snoc. Qed.

Lemma run_snoc inputs i s : run (inputs ++ [i]) s = step i (run inputs s).
Proof. unfold run. now rewrite foldl_snoc. Qed.

Lemma main_mounted mimetypes opened manager :
  main mimetypes opened (fulfilled manager) = mounted mimetypes opened sample_jl manager.
Proof. reflexivity. Qed.

(** *** The mounted page, field by field *)

Section Mounted.
Variable mimetypes : Renderer → list string.
Variable opened : string → NotebookPanel.
Variable jl : JupyterLab.
Variable manager : IServiceManager.

Let s0 := mounted mimetypes opened jl manager.

Lemma mounted_this : this s0 = jl.
Proof. reflexivity. Qed.

Lemma mounted_listeners : listeners s0 = [("keydown", on_keydown, true)].
Proof. reflexivity. Qed.

Lemma mounted_onresize : onresize s0 = Some on_resize.
Proof. reflexivity. Qed.

Lemma mounted_attached : attached s0 = [(w_panel, div_id jl)].
Proof. reflexivity. Qed.

Lemma mounted_keymap : keymap s0 = bindings.
Proof. reflexivity. Qed.

Lemma mounted_nbWidget : nbWidget s0 = Some (opened (NOTEBOOK jl)).
Proof. reflexivity. Qed.

Lemma mounted_panel :
  panel s0 = Some {| panel_id := "main"; orientation := "horizontal";
                     spacing := 0; widgets := [w_palette; w_nbWidget] |}.
Proof. reflexivity. Qed.

Lemma mounted_rendermime :
  rendermime s0 = Some {| renderers := (collect mimetypes transformers).1;
                          order := (collect mimetypes transformers).2;
                          sanitizer := defaultSanitizer |}.
Proof. reflexivity. Qed.

Lemma mounted_palette :
  palette s0 =
    map (λ c, Item.make c "Notebook Operations")
        [ cmdIds.interrupt; cmdIds.restart; cmdIds.editMode;
          cmdIds.commandMode; cmdIds.switchKernel ]
    ++ map (λ c, Item.make c "Notebook Cell Operations")
        [ cmdIds.runAndAdvance; cmdIds.split; cmdIds.merge;
          cmdIds.selectAbove; cmdIds.selectBelow; cmdIds.extendAbove;
          cmdIds.extendBelow; cmdIds.undo; cmdIds.redo ].
Proof. reflexivity. Qed.

Lemma mounted_commands :
  commands s0 =
    list_to_map
      [ (cmdIds.save, {| label := "Save"; execute := run_save |});
        (cmdIds.interrupt, {| label := "Interrupt"; execute := run_interrupt |});
        (cmdIds.restart, {| label := "Restart Kernel"; execute := run_restart |});
        (cmdIds.switchKernel, {| label := "Switch Kernel"; execute := run_switchKernel |});
        (cmdIds.runAndAdvance, {| label := "Run and Advance"; execute := run_runAndAdvance |});
        (cmdIds.editMode, {| label := "Edit Mode"; execute := run_editMode |});
        (cmdIds.commandMode, {| label := "Command Mode"; execute := run_commandMode |});
        (cmdIds.selectBelow, {| label := "Select Below"; execute := run_selectBelow |});
        (cmdIds.selectAbove, {| label := "Select Above"; execute := run_selectAbove |});
        (cmdIds.extendAbove, {| label := "Extend Above"; execute := run_extendAbove |});
        (cmdIds.extendBelow, {| label := "Extend Below"; execute := run_extendBelow |});
        (cmdIds.merge, {| label := "Merge Cells"; execute := run_merge |});
        (cmdIds.split, {| label := "Split Cell"; execute := run_split |});
        (cmdIds.undo, {| label := "Undo"; execute := run_undo |});
        (cmdIds.redo, {| label := "Redo"; execute := run_redo |}) ].
Proof. vm_cast_no_check (eq_refl (commands s0)). Qed.

End Mounted.

(** A recorded call is visible: the trace grows. *)
Lemma snoc_neq {A} (l : list A) (x : A) : l ≠ l ++ [x].
Proof.
  intros H. apply (f_equal length) in H.
  rewrite length_app in H. cbn [length] in H. lia.
Qed.

Lemma emit_neq c s : emit c s ≠ s.
Proof.
  intros H. apply (f_equal trace) in H. cbn [emit trace] in H.
  symmetry in H. exact (snoc_neq _ _ H).
Qed.

(** *** What running a closure leaves alone *)

Lemma constructed_snoc l c :
  constructed (l ++ [c]) =
    constructed l ++ match c with New k => [k] | _ => [] end.
Proof.
  unfold constructed. rewrite omap_app. destruct c; reflexivity.
Qed.

Lemma call_controller c s : controller (call c s) = controller s.
Proof.
  destruct c; try reflexivity; unfold call, with_nbWidget;
    destruct (nbWidget s) as [nb|]; try reflexivity;
    destruct (context_kernel nb); reflexivity.
Qed.

Lemma call_constructed c s :
  constructed (trace (call c s)) = constructed (trace s).
Proof.
  destruct c; unfold call, with_nbWidget;
    try (destruct (nbWidget s) as [nb|]; try reflexivity;
         try destruct (context_kernel nb); try reflexivity);
    cbn [emit trace]; rewrite constructed_snoc; apply app_nil_r.
Qed.

Lemma call_nbWidget_is_Some c s :
  is_Some (nbWidget s) → is_Some (nbWidget (call c s)).
Proof.
  intros [nb Hnb]. destruct c; unfold call, with_nbWidget; rewrite ?Hnb;
    cbn; rewrite ?Hnb; eauto.
  destruct (context_kernel nb); cbn; rewrite ?Hnb; eauto.
Qed.

Section Listeners.
Variable P : State → Prop.
Hypothesis P_call : ∀ c s, P s → P (call c s).

Lemma dispatch_keeps (l : list (string * Closure * bool)) s :
  P s →
  P (forEach l (λ '(type, listener, _),
                  if String.eqb type "keydown" then call listener else λ s, s) s).
Proof.
  induction l as [|[[type listener] useCapture] l IH] using rev_ind; intros Hs.
  - exact Hs.
  - rewrite forEach_snoc. destruct (String.eqb type "keydown"); auto.
Qed.
End Listeners.

Lemma step_controller i s : controller (step i s) = controller s.
Proof.
  destruct i as [| |id|f]; cbn [step].
  - apply (dispatch_keeps (λ s', controller s' = controller s)); [|reflexivity].
    intros c s' Hs'. now rewrite call_controller.
  - destruct (onresize s); [apply call_controller|reflexivity].
  - destruct (commands s !! id); [apply call_controller|reflexivity].
  - reflexivity.
Qed.

Lemma step_constructed i s :
  constructed (trace (step i s)) = constructed (trace s).
Proof.
  destruct i as [| |id|f]; cbn [step].
  - apply (dispatch_keeps (λ s', constructed (trace s') = constructed (trace s)));
      [|reflexivity].
    intros c s' Hs'. now rewrite call_constructed.
  - destruct (onresize s); [apply call_constructed|reflexivity].
  - destruct (commands s !! id); [apply call_constructed|reflexivity].
  - reflexivity.
Qed.

Lemma step_nbWidget_is_Some i s :
  is_Some (nbWidget s) → is_Some (nbWidget (step i s)).
Proof.
  intros Hs. destruct i as [| |id|f]; cbn [step].
  - apply (dispatch_keeps (λ s', is_Some (nbWidget s'))); [|exact Hs].
    intros c s'. apply call_nbWidget_is_Some.
  - destruct (onresize s); [now apply call_nbWidget_is_Some|exact Hs].
  - destruct (commands s !! id); [now apply call_nbWidget_is_Some|exact Hs].
  - destruct Hs as [nb Hnb]. cbn. rewrite Hnb. eauto.
Qed.

Lemma controller_eq s s' :
  controller s = controller s' →
  this s = this s' ∧ listeners s = listeners s' ∧ onresize s = onresize s' ∧
  attached s = attached s' ∧ commands s = commands s' ∧
  keymap s = keymap s' ∧ rendermime s = rendermime s' ∧
  palette s = palette s' ∧ panel s = panel s'.
Proof. unfold controller. intros H. injection H. tauto. Qed.

(** *** Invariants of the mounted page *)

Section Reachable.
Variable mimetypes : Renderer → list string.
Variable opened : string → NotebookPanel.
Variable jl : JupyterLab.
Variable manager : IServiceManager.

Lemma reachable_controller s :
  reachable mimetypes opened jl manager s →
  controller s = controller (mounted mimetypes opened jl manager).
Proof.
  induction 1 as [|i s _ IH]; [reflexivity|].
  now rewrite step_controller.
Qed.

Lemma reachable_constructed s :
  reachable mimetypes opened jl manager s →
  constructed (trace s) =
    constructed (trace (mounted mimetypes opened jl manager)).
Proof.
  induction 1 as [|i s _ IH]; [reflexivity|].
  now rewrite step_constructed.
Qed.

Lemma reachable_nbWidget s :
  reachable mimetypes opened jl manager s → is_Some (nbWidget s).
Proof.
  induction 1 as [|i s _ IH]; [now eexists|].
  now apply step_nbWidget_is_Some.
Qed.

Lemma reachable_commands s :
  reachable mimetypes opened jl manager s →
  commands s = commands (mounted mimetypes opened jl manager).
Proof.
  intros H. apply reachable_controller, controller_eq in H.
  tauto.
Qed.

Lemma reachable_onresize s :
  reachable mimetypes opened jl manager s → onresize s = Some on_resize.
Proof.
  intros H. apply reachable_controller, controller_eq in H.
  tauto.
Qed.

Lemma reachable_palette s :
  reachable mimetypes opened jl manager s →
  palette s = palette (mounted mimetypes opened jl manager).
Proof.
  intros H. apply reachable_controller, controller_eq in H.
  tauto.
Qed.

Lemma reachable_attached s :
  reachable mimetypes opened jl manager s → attached s = [(w_panel, div_id jl)].
Proof.
  intros H. apply reachable_controller, controller_eq in H.
  tauto.
Qed.

Lemma reachable_run inputs s :
  reachable mimetypes opened jl manager s →
  reachable mimetypes opened jl manager (run inputs s).
Proof.
  induction inputs as [|i inputs IH] using rev_ind; intros Hs; [exact Hs|].
  rewrite run_snoc. constructor. auto.
Qed.

End Reachable.

(** ** The command table *)

(** C1, as amended: after mounting, the command registry holds exactly 15
    commands, one for every command id except the delete-cell id, which is
    declared in the id table but never registered. *)
Theorem C1_registered_commands (mimetypes : Renderer → list string)
    (opened : string → NotebookPanel) (jl : JupyterLab)
    (manager : IServiceManager) :
  let s := mounted mimetypes opened jl manager in
  size (commands s) = 15 ∧
  length cmdIds.values = 16 ∧
  commands s !! cmdIds.deleteCell = None ∧
  ∀ id, is_Some (commands s !! id) ↔
        id ∈ cmdIds.values ∧ id ≠ cmdIds.deleteCell.
Proof.
  intros s. subst s. split; [|split; [|split]].
  - vm_compute. reflexivity.
  - reflexivity.
  - vm_compute. reflexivity.
  - intros id.
    rewrite mounted_commands, <- elem_of_dom, dom_list_to_map_L.
    rewrite elem_of_list_to_set. cbn [fmap list_fmap fst].
    unfold cmdIds.values. rewrite !elem_of_cons, !elem_of_nil.
    split.
    + intros H. split; [tauto|].
      intros ->.
      repeat (destruct H as [H|H]; [discriminate H|]). exact H.
    + intros [Hin Hne]. tauto.
Qed.

(** C1, as worded, fails on the page of [main]: 16 commands, one per id. *)
Lemma C1_counterexample : ¬ all_ids_registered sample_page.
Proof.
  intros [Hsize _]. vm_compute in Hsize. discriminate Hsize.
Qed.

(** C2: every key binding added during setup names a command id that is
    registered in the command registry. *)
Theorem C2_bindings_resolve (mimetypes : Renderer → list string)
    (opened : string → NotebookPanel) (jl : JupyterLab)
    (manager : IServiceManager) (b : Binding) :
  b ∈ keymap (mounted mimetypes opened jl manager) →
  is_Some (commands (mounted mimetypes opened jl manager) !! command b).
Proof.
  rewrite mounted_keymap. unfold bindings.
  rewrite !elem_of_cons, elem_of_nil. intros Hb.
  repeat (destruct Hb as [->|Hb]; [vm_compute; eauto|]).
  destruct Hb.
Qed.

Lemma C2_bindings_resolve_witness :
  {| selector := ".jp-Notebook"; keys := ["Accel S"]; command := cmdIds.save |}
    ∈ keymap sample_page ∧
  is_Some (commands sample_page !! cmdIds.save).
Proof.
  split.
  - right. left.
  - exact (C2_bindings_resolve sample_mimetypes sample_opened sample_jl
             sample_manager
             {| selector := ".jp-Notebook"; keys := ["Accel S"];
                command := cmdIds.save |}
             (list_elem_of_further _ _ _ (list_elem_of_here _ _))).
Defined.

(** The fifteen ids registered are pairwise distinct. *)
Lemma registered_ids_NoDup mimetypes opened jl manager :
  NoDup (registered_ids (trace (mounted mimetypes opened jl manager))).
Proof.
  change (registered_ids (trace (mounted mimetypes opened jl manager)))
    with [ cmdIds.save; cmdIds.interrupt; cmdIds.restart; cmdIds.switchKernel;
           cmdIds.runAndAdvance; cmdIds.editMode; cmdIds.commandMode;
           cmdIds.selectBelow; cmdIds.selectAbove; cmdIds.extendAbove;
           cmdIds.extendBelow; cmdIds.merge; cmdIds.split; cmdIds.undo;
           cmdIds.redo ].
  apply (bool_decide_unpack _). vm_compute. exact I.
Qed.

(** The statement is not empty: sixteen bindings were added. *)
Lemma mounted_keymap_length mimetypes opened jl manager :
  length (keymap (mounted mimetypes opened jl manager)) = 16.
Proof. reflexivity. Qed.

(** ** A rejected connection *)

Lemma step_unmounted i jl l :
  step i {| this := jl; listeners := []; onresize := None; attached := [];
            commands := ∅; keymap := []; rendermime := None; palette := [];
            panel := None; nbWidget := None; trace := l |}
  = {| this := jl; listeners := []; onresize := None; attached := [];
       commands := ∅; keymap := []; rendermime := None; palette := [];
       panel := None; nbWidget := None; trace := l |}.
Proof.
  destruct i as [| |id|f]; reflexivity.
Qed.

(** C3: when the creation of the service connection is rejected, nothing of
    steps 2-5 happens, then or later: the only call ever made is the one
    connection attempt, no panel is attached, and nothing is built. *)
Theorem C3_rejected_mount_builds_nothing (mimetypes : Renderer → list string)
    (opened : string → NotebookPanel) (jl : JupyterLab) (reason : string)
    (inputs : list Input) :
  let s := run inputs (embedJupyterLabUI mimetypes opened (rejected reason)
                                         (page_load jl)) in
  trace s = [createServiceManager (serviceManagerOptions jl)] ∧
  attached s = [] ∧ panel s = None ∧ nbWidget s = None ∧
  palette s = [] ∧ commands s = ∅ ∧ keymap s = [] ∧
  rendermime s = None ∧ listeners s = [] ∧ onresize s = None.
Proof.
  intros s.
  assert (Hs : s = emit (createServiceManager (serviceManagerOptions jl))
                        (page_load jl)).
  { subst s. induction inputs as [|i l IH] using rev_ind; [reflexivity|].
    rewrite run_snoc, IH. apply step_unmounted. }
  rewrite Hs. repeat split.
Qed.

(** ** The rendering registry *)

Section Collect.
Variable mimetypes : Renderer → list string.

(** One pass of the inner loop, for renderer [t]. *)
Lemma collect_inner t (ms : list string) (r : gmap string Renderer)
    (o : list string) :
  foldl (λ '(renderers, order) m, (<[m := t]> renderers, order ++ [m]))
        (r, o) ms
  = (foldl (λ acc m, <[m := t]> acc) r ms, o ++ ms).
Proof.
  revert r o. induction ms as [|m ms IH]; intros r o; cbn [foldl].
  - now rewrite app_nil_r.
  - rewrite IH. now rewrite <- app_assoc.
Qed.

Lemma lookup_assign_all t (ms : list string) (r : gmap string Renderer) m :
  foldl (λ acc m', <[m' := t]> acc) r ms !! m
  = if decide (m ∈ ms) then Some t else r !! m.
Proof.
  revert r. induction ms as [|m' ms IH]; intros r; cbn [foldl].
  - destruct (decide (m ∈ [])) as [Hin|_]; [inversion Hin|reflexivity].
  - rewrite IH.
    destruct (decide (m ∈ ms)) as [Hin|Hnin].
    + rewrite decide_True; [reflexivity|now right].
    + destruct (decide (m' = m)) as [->|Hne].
      * rewrite lookup_insert_eq, decide_True; [reflexivity|left].
      * rewrite lookup_insert_ne by exact Hne.
        rewrite decide_False; [reflexivity|].
        intros Hin. apply elem_of_cons in Hin as [->|Hin]; tauto.
Qed.

Lemma collect_snoc ts t :
  collect mimetypes (ts ++ [t])
  = (foldl (λ acc m, <[m := t]> acc) (collect mimetypes ts).1 (mimetypes t),
     (collect mimetypes ts).2 ++ mimetypes t).
Proof.
  unfold collect. rewrite foldl_snoc.
  destruct (foldl _ _ ts) as [r o]. apply collect_inner.
Qed.

(** The order list is the renderers' mime-types, renderer after renderer. *)
Lemma collect_order ts :
  (collect mimetypes ts).2 = concat (map mimetypes ts).
Proof.
  induction ts as [|t ts IH] using rev_ind; [reflexivity|].
  rewrite collect_snoc, map_app, concat_app. cbn. now rewrite IH, app_nil_r.
Qed.

(** A later assignment [renderers[m] = t] overwrites an earlier one. *)
Lemma collect_renderers ts m :
  (collect mimetypes ts).1 !! m = last (declaring mimetypes m ts).
Proof.
  induction ts as [|t ts IH] using rev_ind; [reflexivity|].
  rewrite collect_snoc. cbn [fst]. rewrite lookup_assign_all.
  unfold declaring in *. rewrite filter_app, filter_cons, filter_nil.
  destruct (decide (m ∈ mimetypes t)) as [Hin|Hnin].
  - now rewrite last_snoc.
  - now rewrite app_nil_r.
Qed.

End Collect.

(** What the loop leaves in the registry of a mounted page, whatever the
    renderers declare: the order lists the mime-types renderer after
    renderer, and the map keeps, for each mime-type, the last renderer of the
    list that declares it. *)
Lemma rendermime_of_mounted (mimetypes : Renderer → list string)
    (opened : string → NotebookPanel) (jl : JupyterLab)
    (manager : IServiceManager) :
  ∃ options,
    rendermime (mounted mimetypes opened jl manager) = Some options ∧
    order options = concat (map mimetypes transformers) ∧
    ∀ m, renderers options !! m = last (declaring mimetypes m transformers).
Proof.
  eexists. split; [apply mounted_rendermime|]. cbn [order renderers]. split.
  - apply collect_order.
  - apply collect_renderers.
Qed.

(** ** Executing commands *)

(** The body of the interrupt closure, on either side of its guard. *)
Lemma call_interrupt_without_kernel s nb :
  nbWidget s = Some nb → context_kernel nb = None → call run_interrupt s = s.
Proof.
  intros Hnb Hk. cbn [call]. unfold with_nbWidget. now rewrite Hnb, Hk.
Qed.

Lemma call_interrupt_with_kernel s nb k :
  nbWidget s = Some nb → context_kernel nb = Some k →
  call run_interrupt s = emit (kernel_interrupt k) s.
Proof.
  intros Hnb Hk. cbn [call]. unfold with_nbWidget. now rewrite Hnb, Hk.
Qed.

Section Commands.
Variable mimetypes : Renderer → list string.
Variable opened : string → NotebookPanel.
Variable jl : JupyterLab.
Variable manager : IServiceManager.

Local Abbreviation page := (mounted mimetypes opened jl manager).
Local Abbreviation live := (reachable mimetypes opened jl manager).

(** [commands.execute(id)] runs the closure registered under [id]. *)
Lemma execute_registered s id cmd :
  live s → commands page !! id = Some cmd →
  step (execute_command id) s = call (execute cmd) s.
Proof.
  intros Hs Hcmd. cbn [step].
  now rewrite (reachable_commands _ _ _ _ _ Hs), Hcmd.
Qed.

Lemma execute_unregistered s id :
  live s → commands page !! id = None → step (execute_command id) s = s.
Proof.
  intros Hs Hcmd. cbn [step].
  now rewrite (reachable_commands _ _ _ _ _ Hs), Hcmd.
Qed.

(** The interrupt command is the guarded closure. *)
Lemma execute_interrupt s :
  live s → step (execute_command cmdIds.interrupt) s = call run_interrupt s.
Proof.
  intros Hs.
  now rewrite (execute_registered s _
                 {| label := "Interrupt"; execute := run_interrupt |})
    by (exact Hs || (vm_compute; reflexivity)).
Qed.

(** The resize handler is the one installed by [createApp]. *)
Lemma resize_calls_update s : live s → step resize s = emit panel_update s.
Proof.
  intros Hs. cbn [step]. now rewrite (reachable_onresize _ _ _ _ _ Hs).
Qed.

(** The one keydown listener hands the event to the keymap. *)
Lemma keydown_calls_keymap s :
  live s → step keydown s = emit processKeydownEvent s.
Proof.
  intros Hs. cbn [step].
  pose proof (reachable_controller _ _ _ _ _ Hs) as Hc.
  apply controller_eq in Hc as (_ & -> & _). reflexivity.
Qed.

(** How a closure changes the widget: only the two mode closures do. *)
Lemma call_nbWidget c s :
  nbWidget (call c s) =
    match c with
    | run_editMode => set_mode "edit" <$> nbWidget s
    | run_commandMode => set_mode "command" <$> nbWidget s
    | _ => nbWidget s
    end.
Proof.
  destruct c; try reflexivity; unfold call, with_nbWidget;
    destruct (nbWidget s) as [nb|] eqn:Hnb; cbn; rewrite ?Hnb; try reflexivity.
  destruct (context_kernel nb); cbn; now rewrite Hnb.
Qed.

(** The two mode closures are registered under the two mode ids only. *)
Lemma registered_mode_closures id cmd :
  commands page !! id = Some cmd →
  (execute cmd = run_editMode ↔ id = cmdIds.editMode) ∧
  (execute cmd = run_commandMode ↔ id = cmdIds.commandMode).
Proof.
  rewrite mounted_commands. intros H.
  apply elem_of_list_to_map_2 in H.
  rewrite !elem_of_cons, elem_of_nil in H.
  repeat (destruct H as [H|H];
          [injection H as -> ->; split; split; (reflexivity || discriminate)|]).
  destruct H.
Qed.

End Commands.

(** The page of [main] is a mounted page. *)
Lemma sample_page_reachable :
  reachable sample_mimetypes sample_opened sample_jl sample_manager sample_page.
Proof. apply reachable_mounted. Qed.

(** C5: executing the interrupt command while the document context has no
    kernel changes nothing: no call is made and the page is as before. *)
Theorem C5_interrupt_without_kernel_is_noop (mimetypes : Renderer → list string)
    (opened : string → NotebookPanel) (jl : JupyterLab)
    (manager : IServiceManager) (s : State) (nb : NotebookPanel) :
  reachable mimetypes opened jl manager s →
  nbWidget s = Some nb →
  context_kernel nb = None →
  step (execute_command cmdIds.interrupt) s = s.
Proof.
  intros Hs Hnb Hk.
  rewrite (execute_interrupt mimetypes opened jl manager s Hs).
  cbn [call]. unfold with_nbWidget.
  rewrite Hnb. cbn match. rewrite Hk. reflexivity.
Qed.

Lemma C5_interrupt_without_kernel_is_noop_witness :
  reachable sample_mimetypes sample_opened sample_jl sample_manager sample_page ∧
  nbWidget sample_page = Some (sample_opened "test.ipynb") ∧
  context_kernel (sample_opened "test.ipynb") = None ∧
  step (execute_command cmdIds.interrupt) sample_page = sample_page.
Proof.
  split; [apply reachable_mounted|].
  split; [reflexivity|]. split; [reflexivity|].
  apply (C5_interrupt_without_kernel_is_noop sample_mimetypes sample_opened
           sample_jl sample_manager sample_page (sample_opened "test.ipynb")).
  - apply reachable_mounted.
  - reflexivity.
  - reflexivity.
Defined.

(** With a kernel, the same command makes the one interrupt call. *)
Lemma interrupt_with_kernel mimetypes opened jl manager s nb k :
  reachable mimetypes opened jl manager s →
  nbWidget s = Some nb → context_kernel nb = Some k →
  step (execute_command cmdIds.interrupt) s = emit (kernel_interrupt k) s.
Proof.
  intros Hs Hnb Hk.
  rewrite (execute_interrupt mimetypes opened jl manager s Hs).
  now apply (call_interrupt_with_kernel s nb).
Qed.

(** C6, as amended: each of the 15 registered commands does at most one
    thing to the outside.  Twelve make exactly one call; interrupt makes one
    call when the context has a kernel and none otherwise; the two mode
    commands make no call and assign the widget's mode.  The delete-cell id
    is not registered and executing it does nothing.  No command changes
    what the controller built. *)
Theorem C6_commands_forward (mimetypes : Renderer → list string)
    (opened : string → NotebookPanel) (jl : JupyterLab)
    (manager : IServiceManager) (s : State) (nb : NotebookPanel) :
  reachable mimetypes opened jl manager s →
  nbWidget s = Some nb →
  (∀ id, controller (step (execute_command id) s) = controller s) ∧
  step (execute_command cmdIds.save) s = emit context_save s ∧
  step (execute_command cmdIds.interrupt) s =
    match context_kernel nb with
    | Some k => emit (kernel_interrupt k) s
    | None => s
    end ∧
  step (execute_command cmdIds.restart) s = emit (restartKernel (kernel nb)) s ∧
  step (execute_command cmdIds.switchKernel) s = emit selectKernelForContext s ∧
  step (execute_command cmdIds.runAndAdvance) s =
    emit (NotebookActions_runAndAdvance (context_kernel nb)) s ∧
  step (execute_command cmdIds.deleteCell) s = s ∧
  step (execute_command cmdIds.selectAbove) s = emit NotebookActions_selectAbove s ∧
  step (execute_command cmdIds.selectBelow) s = emit NotebookActions_selectBelow s ∧
  step (execute_command cmdIds.extendAbove) s =
    emit NotebookActions_extendSelectionAbove s ∧
  step (execute_command cmdIds.extendBelow) s =
    emit NotebookActions_extendSelectionBelow s ∧
  step (execute_command cmdIds.editMode) s =
    set_nbWidget (Some (set_mode "edit" nb)) s ∧
  step (execute_command cmdIds.merge) s = emit NotebookActions_mergeCells s ∧
  step (execute_command cmdIds.split) s = emit NotebookActions_splitCell s ∧
  step (execute_command cmdIds.commandMode) s =
    set_nbWidget (Some (set_mode "command" nb)) s ∧
  step (execute_command cmdIds.undo) s = emit NotebookActions_undo s ∧
  step (execute_command cmdIds.redo) s = emit NotebookActions_redo s.
Proof.
  intros Hs Hnb. split; [intros id; apply step_controller|].
  assert (Hrun : ∀ id cmd,
             commands (mounted mimetypes opened jl manager) !! id = Some cmd →
             step (execute_command id) s = call (execute cmd) s)
    by (intros id cmd; now apply execute_registered).
  repeat split;
    try (erewrite Hrun by (vm_compute; reflexivity);
         cbn [execute call]; unfold with_nbWidget; rewrite ?Hnb; reflexivity).
  apply (execute_unregistered mimetypes opened jl manager);
    [exact Hs|vm_compute; reflexivity].
Qed.

Lemma C6_commands_forward_witness :
  reachable sample_mimetypes sample_opened_live sample_jl sample_manager
    (mounted sample_mimetypes sample_opened_live sample_jl sample_manager) ∧
  nbWidget (mounted sample_mimetypes sample_opened_live sample_jl sample_manager)
    = Some (sample_opened_live "test.ipynb") ∧
  step (execute_command cmdIds.interrupt)
       (mounted sample_mimetypes sample_opened_live sample_jl sample_manager)
  = emit (kernel_interrupt "k0")
         (mounted sample_mimetypes sample_opened_live sample_jl sample_manager).
Proof.
  split; [apply reachable_mounted|]. split; [reflexivity|].
  exact (proj1 (proj2 (proj2
           (C6_commands_forward sample_mimetypes sample_opened_live sample_jl
              sample_manager
              (mounted sample_mimetypes sample_opened_live sample_jl sample_manager)
              (sample_opened_live "test.ipynb")
              (reachable_mounted sample_mimetypes sample_opened_live sample_jl
                                 sample_manager)
              eq_refl)))).
Defined.

(** C6, as worded, fails on the page of [main], whose notebook has no kernel
    yet: the interrupt command makes no call at all. *)
Lemma C6_counterexample : ¬ one_call_each sample_page.
Proof.
  intros H. destruct (H cmdIds.interrupt) as (c & Hc & _).
  - right. left.
  - rewrite (execute_interrupt sample_mimetypes sample_opened sample_jl
               sample_manager sample_page sample_page_reachable) in Hc.
    rewrite (call_interrupt_without_kernel sample_page
               (sample_opened "test.ipynb") eq_refl eq_refl) in Hc.
    exact (snoc_neq _ _ Hc).
Qed.

(** The same failure for the two other kinds of command: a mode command
    assigns a property and calls nothing, and the delete-cell id has no
    command behind it. *)
Lemma mode_and_delete_make_no_call :
  trace (step (execute_command cmdIds.editMode) sample_page) = trace sample_page ∧
  (content_mode <$> nbWidget (step (execute_command cmdIds.editMode) sample_page))
    = Some "edit" ∧
  step (execute_command cmdIds.deleteCell) sample_page = sample_page.
Proof.
  split; [vm_compute; reflexivity|]. split; [vm_compute; reflexivity|].
  apply (execute_unregistered sample_mimetypes sample_opened sample_jl
           sample_manager); [apply reachable_mounted|vm_compute; reflexivity].
Qed.

(** ** After setup *)

(** C7: what was built at startup stays as built.  In every state of a
    mounted page and for every input, the instance, the listeners, the resize
    handler, the attachment, the command table, the key bindings, the
    rendering registry, the palette and the panel are those of the freshly
    mounted page, and each class was instantiated once, during mounting.  The
    controller writes to the widget in one way only: the edit-mode and
    command-mode commands assign its mode. *)
Theorem C7_setup_is_frozen (mimetypes : Renderer → list string)
    (opened : string → NotebookPanel) (jl : JupyterLab)
    (manager : IServiceManager) (s : State) (i : Input) :
  reachable mimetypes opened jl manager s →
  controller s = controller (mounted mimetypes opened jl manager) ∧
  controller (step i s) = controller (mounted mimetypes opened jl manager) ∧
  constructed (trace (step i s)) =
    [ CommandRegistry; Keymap ] ++ map Transformer transformers ++
    [ RenderMime; DocumentRegistry; DocumentManager manager;
      NotebookModelFactory; MimeData; NotebookWidgetFactory; CommandPalette;
      SplitPanel ] ∧
  NoDup (constructed (trace (step i s))) ∧
  nbWidget (step i s) =
    match i with
    | keydown | resize => nbWidget s
    | execute_command id =>
        if decide (id = cmdIds.editMode) then set_mode "edit" <$> nbWidget s
        else if decide (id = cmdIds.commandMode)
             then set_mode "command" <$> nbWidget s
             else nbWidget s
    | toolkit f => f <$> nbWidget s
    end.
Proof.
  intros Hs.
  assert (Hbuilt : constructed (trace (step i s)) =
            [ CommandRegistry; Keymap ] ++ map Transformer transformers ++
            [ RenderMime; DocumentRegistry; DocumentManager manager;
              NotebookModelFactory; MimeData; NotebookWidgetFactory;
              CommandPalette; SplitPanel ]).
  { rewrite step_constructed.
    now rewrite (reachable_constructed _ _ _ _ _ Hs). }
  split; [now apply reachable_controller|].
  split; [rewrite step_controller; now apply reachable_controller|].
  split; [exact Hbuilt|].
  split.
  { rewrite Hbuilt. cbn.
    repeat (apply NoDup_cons; split;
            [rewrite ?elem_of_cons, elem_of_nil; intros H;
             repeat (destruct H as [H|H]; [discriminate H|]); exact H|]).
    apply NoDup_nil_2. }
  destruct i as [| |id|f].
  - now rewrite (keydown_calls_keymap _ _ _ _ s Hs).
  - now rewrite (resize_calls_update _ _ _ _ s Hs).
  - destruct (commands (mounted mimetypes opened jl manager) !! id)
      as [cmd|] eqn:Hcmd.
    + rewrite (execute_registered _ _ _ _ s id cmd Hs Hcmd), call_nbWidget.
      destruct (registered_mode_closures _ _ _ _ id cmd Hcmd) as [Hedit Hcommand].
      destruct (decide (id = cmdIds.editMode)) as [He|He].
      * apply Hedit in He. now rewrite He.
      * destruct (decide (id = cmdIds.commandMode)) as [Hc|Hc].
        -- apply Hcommand in Hc. now rewrite Hc.
        -- destruct (execute cmd); try reflexivity; tauto.
    + rewrite (execute_unregistered _ _ _ _ s id Hs Hcmd).
      destruct (decide (id = cmdIds.editMode)) as [->|He];
        [vm_compute in Hcmd; discriminate Hcmd|].
      destruct (decide (id = cmdIds.commandMode)) as [->|Hc];
        [vm_compute in Hcmd; discriminate Hcmd|].
      reflexivity.
  - reflexivity.
Qed.

Lemma C7_setup_is_frozen_witness :
  reachable sample_mimetypes sample_opened sample_jl sample_manager sample_page ∧
  controller (step (execute_command cmdIds.editMode) sample_page)
  = controller sample_page.
Proof.
  split; [apply reachable_mounted|].
  exact (proj1 (proj2 (C7_setup_is_frozen sample_mimetypes sample_opened
                         sample_jl sample_manager sample_page
                         (execute_command cmdIds.editMode)
                         (reachable_mounted _ _ _ _)))).
Defined.

(** ** The order of mounting *)

(** C8, as amended: the callback runs only once the connection handle is
    there; while the promise is pending nothing but the connection attempt
    has happened.  [createApp] then runs to the end without suspending, in
    this order: it constructs the command registry and the keymap and
    installs the keydown listener; builds the rendering registry; builds the
    document registry and manager and registers the two factories; opens the
    document widget; constructs the palette; builds the split panel and
    attaches it to the container; and only after the panel is attached
    registers the 15 commands, then adds the 14 palette items, and last of
    all adds the 16 key bindings. *)
Theorem C8_mounting_order (mimetypes : Renderer → list string)
    (opened : string → NotebookPanel) (jl : JupyterLab)
    (manager : IServiceManager) :
  (∀ s, embedJupyterLabUI mimetypes opened pending s
        = emit (createServiceManager (serviceManagerOptions (this s))) s) ∧
  (∀ s, embedJupyterLabUI mimetypes opened (fulfilled manager) s
        = createApp mimetypes opened manager
            (emit (createServiceManager (serviceManagerOptions (this s))) s)) ∧
  trace (mounted mimetypes opened jl manager) =
    [ createServiceManager (serviceManagerOptions jl);
      New CommandRegistry; New Keymap;
      addEventListener "keydown" on_keydown true ]
    ++ map (λ t, New (Transformer t)) transformers
    ++ [ New RenderMime;
         New DocumentRegistry; New (DocumentManager manager);
         New NotebookModelFactory; New MimeData; New NotebookWidgetFactory;
         addModelFactory;
         addWidgetFactory
           {| displayName := "Notebook"; modelName := "notebook";
              fileExtensions := [".ipynb"]; defaultFor := [".ipynb"];
              preferKernel := true; canStartKernel := true |};
         docManager_open (NOTEBOOK jl);
         New CommandPalette;
         New SplitPanel; setStretch w_palette 0;
         addWidget w_palette; addWidget w_nbWidget;
         Widget_attach w_panel (div_id jl);
         setStretch w_nbWidget 1 ]
    ++ [ addCommand cmdIds.save {| label := "Save"; execute := run_save |};
         addCommand cmdIds.interrupt
           {| label := "Interrupt"; execute := run_interrupt |};
         addCommand cmdIds.restart
           {| label := "Restart Kernel"; execute := run_restart |};
         addCommand cmdIds.switchKernel
           {| label := "Switch Kernel"; execute := run_switchKernel |};
         addCommand cmdIds.runAndAdvance
           {| label := "Run and Advance"; execute := run_runAndAdvance |};
         addCommand cmdIds.editMode
           {| label := "Edit Mode"; execute := run_editMode |};
         addCommand cmdIds.commandMode
           {| label := "Command Mode"; execute := run_commandMode |};
         addCommand cmdIds.selectBelow
           {| label := "Select Below"; execute := run_selectBelow |};
         addCommand cmdIds.selectAbove
           {| label := "Select Above"; execute := run_selectAbove |};
         addCommand cmdIds.extendAbove
           {| label := "Extend Above"; execute := run_extendAbove |};
         addCommand cmdIds.extendBelow
           {| label := "Extend Below"; execute := run_extendBelow |};
         addCommand cmdIds.merge
           {| label := "Merge Cells"; execute := run_merge |};
         addCommand cmdIds.split
           {| label := "Split Cell"; execute := run_split |};
         addCommand cmdIds.undo {| label := "Undo"; execute := run_undo |};
         addCommand cmdIds.redo {| label := "Redo"; execute := run_redo |} ]
    ++ map (λ c, addItem (Item.make c "Notebook Operations"))
         [ cmdIds.interrupt; cmdIds.restart; cmdIds.editMode;
           cmdIds.commandMode; cmdIds.switchKernel ]
    ++ map (λ c, addItem (Item.make c "Notebook Cell Operations"))
         [ cmdIds.runAndAdvance; cmdIds.split; cmdIds.merge;
           cmdIds.selectAbove; cmdIds.selectBelow; cmdIds.extendAbove;
           cmdIds.extendBelow; cmdIds.undo; cmdIds.redo ]
    ++ map addBinding bindings.
Proof. repeat split. Qed.

(** Where each milestone falls among the 72 calls of a mounting. *)
Lemma mounting_milestones mimetypes opened jl manager :
  let l := trace (mounted mimetypes opened jl manager) in
  length l = 72 ∧
  first_index (command_table constructing) l = 1 ∧
  first_index (keybinding_table constructing) l = 2 ∧
  first_index rendering_registry l = 11 ∧
  first_index document_registry l = 12 ∧
  first_index document_widget l = 19 ∧
  first_index (palette_table constructing) l = 20 ∧
  first_index panel_attached l = 25 ∧
  first_index (command_table filling) l = 27 ∧
  first_index (palette_table filling) l = 42 ∧
  first_index (keybinding_table filling) l = 56.
Proof. repeat split. Qed.

(** C8, as worded, fails on the page of [main] however the tables are
    read.  Read as objects, the command registry and the keymap are
    constructed before the rendering registry; read as contents, the
    commands, palette items and bindings are all added after the panel is
    attached. *)
Lemma C8_counterexample :
  Forall (λ '(rc, rp, rk), ¬ stated_order rc rp rk (trace sample_page)) readings.
Proof.
  pose proof (mounting_milestones sample_mimetypes sample_opened sample_jl
                sample_manager)
    as (_ & Hc & Hk & _ & _ & Hw & Hp & Ha & Hc' & Hp' & Hk').
  change (trace (mounted sample_mimetypes sample_opened sample_jl sample_manager))
    with (trace sample_page) in *.
  unfold readings. cbn [mbind list_bind mret list_ret app concat map].
  repeat constructor;
    intros (_ & _ & H3 & H4 & H5 & H6 & H7 & _);
    rewrite ?Hc, ?Hk, ?Hw, ?Hp, ?Ha, ?Hc', ?Hp', ?Hk' in *; lia.
Qed.

(** ** Resizing *)

(** C9: on a mounted page, a window resize event makes exactly one call,
    [panel.update()] on the attached panel, and changes nothing else. *)
Theorem C9_resize_updates_once (mimetypes : Renderer → list string)
    (opened : string → NotebookPanel) (jl : JupyterLab)
    (manager : IServiceManager) (s : State) :
  reachable mimetypes opened jl manager s →
  step resize s = emit panel_update s ∧
  trace (step resize s) = trace s ++ [panel_update] ∧
  attached s = [(w_panel, div_id jl)].
Proof.
  intros Hs. rewrite (resize_calls_update _ _ _ _ s Hs).
  split; [reflexivity|]. split; [reflexivity|].
  now apply (reachable_attached mimetypes opened jl manager).
Qed.

Lemma C9_resize_updates_once_witness :
  reachable sample_mimetypes sample_opened sample_jl sample_manager sample_page ∧
  step resize sample_page = emit panel_update sample_page ∧
  trace (step resize sample_page) = trace sample_page ++ [panel_update] ∧
  attached sample_page = [(w_panel, div_id sample_jl)].
Proof.
  split; [apply reachable_mounted|].
  apply (C9_resize_updates_once sample_mimetypes sample_opened sample_jl
           sample_manager sample_page).
  apply reachable_mounted.
Defined.

(** ** The palette *)

(** C10: the palette of a mounted page holds exactly 14 items, 5 in
    'Notebook Operations' and 9 in 'Notebook Cell Operations'; neither the
    save id nor the delete-cell id is ever among them. *)
Theorem C10_palette_items (mimetypes : Renderer → list string)
    (opened : string → NotebookPanel) (jl : JupyterLab)
    (manager : IServiceManager) (s : State) :
  reachable mimetypes opened jl manager s →
  length (palette s) = 14 ∧
  length (filter (λ it, Item.category it = "Notebook Operations") (palette s)) = 5 ∧
  length (filter (λ it, Item.category it = "Notebook Cell Operations")
                 (palette s)) = 9 ∧
  (cmdIds.save ∉ map Item.command (palette s)) ∧
  (cmdIds.deleteCell ∉ map Item.command (palette s)).
Proof.
  intros Hs.
  rewrite (reachable_palette _ _ _ _ s Hs), mounted_palette.
  split; [reflexivity|]. split; [reflexivity|]. split; [reflexivity|].
  cbn [map app Item.command].
  split; rewrite !elem_of_cons, elem_of_nil; intros H;
    repeat (destruct H as [H|H]; [discriminate H|]); exact H.
Qed.

Lemma C10_palette_items_witness :
  reachable sample_mimetypes sample_opened sample_jl sample_manager sample_page ∧
  length (palette sample_page) = 14.
Proof.
  split; [apply reachable_mounted|].
  exact (proj1 (C10_palette_items sample_mimetypes sample_opened sample_jl
                  sample_manager sample_page (reachable_mounted _ _ _ _))).
Defined.

(** ** The rendering registry, for any list of renderers *)

Section Registry.
Variable mimetypes : Renderer → list string.

Lemma elem_of_declared ts m :
  m ∈ concat (map mimetypes ts) ↔ ∃ t, t ∈ ts ∧ m ∈ mimetypes t.
Proof.
  induction ts as [|t ts IH]; cbn [map concat].
  - split; [intros H; inversion H|intros (t & H & _); inversion H].
  - rewrite elem_of_app, IH. split.
    + intros [H|(t' & Ht' & Hm)]; [exists t; split; [left|exact H]|].
      exists t'. split; [now right|exact Hm].
    + intros (t' & Ht' & Hm). apply elem_of_cons in Ht' as [->|Ht'];
        [now left|right; eauto].
Qed.

(** The preference order and the renderer map agree: a mime-type is in the
    order exactly when the map has a renderer for it, a mime-type nobody
    declares has none, and the renderer a mime-type resolves to is one of the
    list and declares that mime-type. *)
Theorem order_and_renderers_agree (ts : list Renderer) (m : string) :
  (m ∈ (collect mimetypes ts).2 ↔ is_Some ((collect mimetypes ts).1 !! m)) ∧
  ((∀ t, t ∈ ts → m ∉ mimetypes t) → (collect mimetypes ts).1 !! m = None) ∧
  (∀ t, (collect mimetypes ts).1 !! m = Some t → t ∈ ts ∧ m ∈ mimetypes t).
Proof.
  rewrite collect_order, collect_renderers, elem_of_declared, last_is_Some.
  unfold declaring. split; [|split].
  - split.
    + intros (t & Ht & Hm) Hnil.
      apply (filter_nil_not_elem_of _ _ t Hnil Hm Ht).
    + intros Hne. destruct (filter _ ts) as [|t l] eqn:Hf; [congruence|].
      assert (Ht : t ∈ filter (λ t, m ∈ mimetypes t) ts) by (rewrite Hf; left).
      apply list_elem_of_filter in Ht as [Hm Ht]. eauto.
  - intros Hnone. apply last_None.
    destruct (filter _ ts) as [|t l] eqn:Hf; [reflexivity|].
    assert (Ht : t ∈ filter (λ t, m ∈ mimetypes t) ts) by (rewrite Hf; left).
    apply list_elem_of_filter in Ht as [Hm Ht]. destruct (Hnone t Ht Hm).
  - intros t Hlast. apply last_Some_elem_of, list_elem_of_filter in Hlast.
    tauto.
Qed.

Lemma declared_once ts m t t' :
  NoDup (concat (map mimetypes ts)) →
  t ∈ ts → t' ∈ ts → m ∈ mimetypes t → m ∈ mimetypes t' → t = t'.
Proof.
  induction ts as [|t0 ts IH]; cbn [map concat]; intros Hnd Ht Ht' Hm Hm'.
  - inversion Ht.
  - apply NoDup_app in Hnd as (_ & Hdisj & Hnd).
    apply elem_of_cons in Ht as [->|Ht], Ht' as [->|Ht'].
    + reflexivity.
    + destruct (Hdisj m Hm). apply elem_of_declared. eauto.
    + destruct (Hdisj m Hm'). apply elem_of_declared. eauto.
    + now apply IH.
Qed.

(** When no mime-type is declared twice, each declared mime-type resolves to
    the renderer that declares it. *)
Theorem unique_declaration_resolves (ts : list Renderer) (t : Renderer)
    (m : string) :
  NoDup (concat (map mimetypes ts)) →
  t ∈ ts → m ∈ mimetypes t →
  (collect mimetypes ts).1 !! m = Some t ∧ NoDup (collect mimetypes ts).2.
Proof.
  intros Hnd Ht Hm. rewrite collect_order. split; [|exact Hnd].
  rewrite collect_renderers. unfold declaring.
  destruct (last (filter (λ t, m ∈ mimetypes t) ts)) as [t'|] eqn:Hlast.
  - apply last_Some_elem_of, list_elem_of_filter in Hlast as [Hm' Ht'].
    f_equal. now apply (declared_once ts m).
  - apply last_None in Hlast.
    destruct (filter_nil_not_elem_of _ _ t Hlast Hm Ht).
Qed.

End Registry.



Lemma unique_declaration_resolves_witness :
  NoDup (concat (map sample_mimetypes transformers)) ∧
  HTMLRenderer ∈ transformers ∧
  "text/html" ∈ sample_mimetypes HTMLRenderer ∧
  (collect sample_mimetypes transformers).1 !! "text/html" = Some HTMLRenderer ∧
  NoDup (collect sample_mimetypes transformers).2.
Proof.
  assert (Hnd : NoDup (concat (map sample_mimetypes transformers)))
    by (apply (bool_decide_unpack _); vm_compute; exact I).
  assert (Ht : HTMLRenderer ∈ transformers) by (right; right; left).
  assert (Hm : "text/html" ∈ sample_mimetypes HTMLRenderer) by left.
  split; [exact Hnd|]. split; [exact Ht|]. split; [exact Hm|].
  exact (unique_declaration_resolves sample_mimetypes transformers
           HTMLRenderer "text/html" Hnd Ht Hm).
Defined.

(** ** The palette and the keymap against the command table *)

Section Tables.
Variable mimetypes : Renderer → list string.
Variable opened : string → NotebookPanel.
Variable jl : JupyterLab.
Variable manager : IServiceManager.

Lemma reachable_keymap s :
  reachable mimetypes opened jl manager s → keymap s = bindings.
Proof.
  intros H. apply reachable_controller, controller_eq in H.
  tauto.
Qed.

Lemma reachable_listeners s :
  reachable mimetypes opened jl manager s →
  listeners s = [("keydown", on_keydown, true)].
Proof.
  intros H. apply reachable_controller, controller_eq in H.
  tauto.
Qed.

(** Every palette item names a registered command, and no command is listed
    twice. *)
Theorem palette_items_resolve (s : State) (it : Item.t) :
  reachable mimetypes opened jl manager s →
  it ∈ palette s →
  is_Some (commands s !! Item.command it) ∧
  NoDup (map Item.command (palette s)).
Proof.
  intros Hs.
  rewrite (reachable_palette _ _ _ _ s Hs), (reachable_commands _ _ _ _ s Hs).
  rewrite mounted_palette. cbn [map app].
  intros Hit. split.
  - rewrite !elem_of_cons, elem_of_nil in Hit.
    repeat (destruct Hit as [->|Hit]; [vm_compute; eauto|]).
    destruct Hit.
  - apply (bool_decide_unpack _). vm_compute. exact I.
Qed.

(** Every registered command can be reached by the user: it is in the
    palette or bound to a key.  Save has a key only, switch-kernel a palette
    entry only. *)
Theorem registered_commands_are_reachable (s : State) (id : string) :
  reachable mimetypes opened jl manager s →
  is_Some (commands s !! id) →
  (id ∈ map Item.command (palette s) ∨ id ∈ map command (keymap s)) ∧
  (cmdIds.save ∉ map Item.command (palette s)) ∧
  (cmdIds.switchKernel ∉ map command (keymap s)).
Proof.
  intros Hs.
  rewrite (reachable_palette _ _ _ _ s Hs), (reachable_commands _ _ _ _ s Hs),
    (reachable_keymap s Hs).
  rewrite mounted_palette, mounted_commands.
  rewrite <- elem_of_dom, dom_list_to_map_L, elem_of_list_to_set.
  cbn [fmap list_fmap fst]. intros Hid. split; [|split].
  - rewrite !elem_of_cons, elem_of_nil in Hid.
    repeat (destruct Hid as [->|Hid];
            [apply (bool_decide_unpack _); vm_compute; exact I|]).
    destruct Hid.
  - apply (bool_decide_unpack _). vm_compute. exact I.
  - apply (bool_decide_unpack _). vm_compute. exact I.
Qed.

(** No key chord is bound twice, in whatever scope: a chord never stands for
    two commands. *)
Theorem key_chords_are_unambiguous (s : State) (b1 b2 : Binding) :
  reachable mimetypes opened jl manager s →
  b1 ∈ keymap s → b2 ∈ keymap s → keys b1 = keys b2 → b1 = b2.
Proof.
  intros Hs. rewrite (reachable_keymap s Hs).
  assert (Hnd : NoDup (map keys bindings))
    by (apply (bool_decide_unpack _); vm_compute; exact I).
  intros H1 H2 Hk.
  apply list_elem_of_lookup in H1 as [i Hi], H2 as [j Hj].
  assert (i = j) as ->.
  { apply (NoDup_lookup (map keys bindings) i j (keys b1)); [exact Hnd| |].
    - change (map keys bindings) with (keys <$> bindings).
      now rewrite list_lookup_fmap, Hi.
    - change (map keys bindings) with (keys <$> bindings).
      now rewrite list_lookup_fmap, Hj, Hk. }
  congruence.
Qed.

(** One keydown listener is installed, in the capture phase, and its own
    body is a single call: it hands the event to the keymap and touches
    nothing else itself.  What the keymap does with the event (running the
    command of a bound chord) is a command execution of its own, an
    [execute_command] input, and no part of this statement. *)
Theorem keydown_is_forwarded_once (s : State) :
  reachable mimetypes opened jl manager s →
  step keydown s = emit processKeydownEvent s ∧
  listeners s = [("keydown", on_keydown, true)].
Proof.
  intros Hs. split.
  - now apply (keydown_calls_keymap mimetypes opened jl manager).
  - now apply reachable_listeners.
Qed.

End Tables.

(** ** What happens after, and instead of, mounting *)

Lemma step_unmounted_run inputs jl l :
  run inputs {| this := jl; listeners := []; onresize := None; attached := [];
                commands := ∅; keymap := []; rendermime := None; palette := [];
                panel := None; nbWidget := None; trace := l |}
  = {| this := jl; listeners := []; onresize := None; attached := [];
       commands := ∅; keymap := []; rendermime := None; palette := [];
       panel := None; nbWidget := None; trace := l |}.
Proof.
  induction inputs as [|i inputs IH] using rev_ind; [reflexivity|].
  rewrite run_snoc, IH. apply step_unmounted.
Qed.

(** While the connection promise stays pending, the page stays empty: the one
    connection attempt is the only call, and keydown events, resize events
    and command executions find nothing installed and do nothing. *)
Theorem pending_mount_builds_nothing (mimetypes : Renderer → list string)
    (opened : string → NotebookPanel) (jl : JupyterLab) (inputs : list Input) :
  run inputs (embedJupyterLabUI mimetypes opened pending (page_load jl))
  = emit (createServiceManager (serviceManagerOptions jl)) (page_load jl).
Proof. apply step_unmounted_run. Qed.

Lemma call_trace c s :
  ∃ post, trace (call c s) = trace s ++ post ∧
          Forall (λ c, runtime_call c = true) post ∧ (length post ≤ 1)%nat.
Proof.
  assert (Hnone : ∃ post, trace s = trace s ++ post ∧
                    Forall (λ c, runtime_call c = true) post ∧ (length post ≤ 1)%nat).
  { exists []. rewrite app_nil_r. repeat split; [constructor|cbn; lia]. }
  assert (Hone : ∀ c', runtime_call c' = true →
            ∃ post, trace (emit c' s) = trace s ++ post ∧
                    Forall (λ c, runtime_call c = true) post ∧ (length post ≤ 1)%nat).
  { intros c' Hc'. exists [c']. repeat split; [now repeat constructor|cbn; lia]. }
  destruct c; unfold call, with_nbWidget;
    try (apply Hone; reflexivity);
    destruct (nbWidget s) as [nb|]; try exact Hnone;
    try (apply Hone; reflexivity).
  destruct (context_kernel nb); [apply Hone; reflexivity|exact Hnone].
Qed.

Section Afterwards.
Variable mimetypes : Renderer → list string.
Variable opened : string → NotebookPanel.
Variable jl : JupyterLab.
Variable manager : IServiceManager.

Lemma step_trace i s :
  reachable mimetypes opened jl manager s →
  ∃ post, trace (step i s) = trace s ++ post ∧
          Forall (λ c, runtime_call c = true) post ∧ (length post ≤ 1)%nat.
Proof.
  intros Hs. destruct i as [| |id|f].
  - rewrite (keydown_calls_keymap _ _ _ _ s Hs).
    exists [processKeydownEvent]. repeat split; [now repeat constructor|cbn; lia].
  - rewrite (resize_calls_update _ _ _ _ s Hs).
    exists [panel_update]. repeat split; [now repeat constructor|cbn; lia].
  - cbn [step]. destruct (commands s !! id); [apply call_trace|].
    exists []. rewrite app_nil_r. repeat split; [constructor|cbn; lia].
  - exists []. cbn [step set_nbWidget trace]. rewrite app_nil_r.
    repeat split; [constructor|cbn; lia].
Qed.

Lemma run_trace inputs :
  ∃ post,
    trace (run inputs (mounted mimetypes opened jl manager))
    = trace (mounted mimetypes opened jl manager) ++ post ∧
    Forall (λ c, runtime_call c = true) post ∧ (length post ≤ length inputs)%nat.
Proof.
  induction inputs as [|i inputs (post & Hpost & Hrt & Hlen)] using rev_ind.
  - exists []. rewrite app_nil_r. repeat split; [constructor|cbn; lia].
  - rewrite run_snoc.
    destruct (step_trace i (run inputs (mounted mimetypes opened jl manager)))
      as (post' & Hpost' & Hrt' & Hlen').
    { apply reachable_run, reachable_mounted. }
    exists (post ++ post'). rewrite Hpost', Hpost, app_assoc.
    split; [reflexivity|]. split; [now apply Forall_app|].
    rewrite !length_app. cbn [length]. lia.
Qed.

(** Once the page is mounted, setup is over for good: whatever events
    follow, the trace is that of the mounting followed by closure calls only
    (no further construction, registration, attachment, document opening or
    connection attempt). *)
Theorem after_mounting_only_closure_calls (inputs : list Input) :
  ∃ post,
    trace (run inputs (mounted mimetypes opened jl manager))
    = trace (mounted mimetypes opened jl manager) ++ post ∧
    Forall (λ c, runtime_call c = true) post ∧
    Forall (λ c, runtime_call c = false)
           (trace (mounted mimetypes opened jl manager)).
Proof.
  destruct (run_trace inputs) as (post & Hpost & Hrt & _).
  exists post. split; [exact Hpost|]. split; [exact Hrt|].
  apply List.Forall_forall. intros c Hc.
  assert (Hall : forallb (λ c, negb (runtime_call c))
                         (trace (mounted mimetypes opened jl manager)) = true)
    by (vm_compute; reflexivity).
  apply (proj1 (List.forallb_forall _ _) Hall) in Hc.
  now destruct (runtime_call c).
Qed.

End Afterwards.

Lemma omap_runtime_nil {A} (f : Call → option A) (post : list Call) :
  (∀ c, runtime_call c = true → f c = None) →
  Forall (λ c, runtime_call c = true) post → omap f post = [].
Proof.
  intros Hf. induction 1 as [|c post Hc _ IH]; [reflexivity|].
  cbn [omap list_omap]. now rewrite (Hf c Hc).
Qed.

(** When the notebook can be opened and the target element accepts the
    panel, mounting completes and the arguments given to the constructor are
    the ones that reached the toolkit, once each and never again: one
    connection attempt with the given settings and base URL, one document
    opened under the given name, one attachment, of the panel, to the element
    with the given id.  When either fails, no mounted page comes about. *)
Theorem constructor_arguments_are_used_once (mimetypes : Renderer → list string)
    (opened : string → NotebookPanel) (opens accepts : string → bool)
    (target notebook_name : string)
    (settings : option IAjaxSettings) (url : option string)
    (manager : IServiceManager) (inputs : list Input) :
  opens notebook_name = true →
  accepts target = true →
  ∃ s0,
    mounted_checked mimetypes opened opens accepts
      (constructor target notebook_name settings url) manager = Some s0 ∧
    connection_attempts (trace (run inputs s0))
    = [{| ajaxSettings := settings; baseUrl := url |}] ∧
    opened_paths (trace (run inputs s0)) = [notebook_name] ∧
    attachments (trace (run inputs s0)) = [(w_panel, target)] ∧
    attached (run inputs s0) = [(w_panel, target)].
Proof.
  intros Hopens Haccepts.
  exists (mounted mimetypes opened
            (constructor target notebook_name settings url) manager).
  split.
  { unfold mounted_checked, createApp_checked. cbn [this emit page_load].
    cbn [constructor NOTEBOOK div_id]. now rewrite Hopens, Haccepts. }
  destruct (run_trace mimetypes opened
              (constructor target notebook_name settings url) manager inputs)
    as (post & Hpost & Hrt & _).
  rewrite Hpost. unfold connection_attempts, opened_paths, attachments.
  rewrite !omap_app.
  rewrite !(omap_runtime_nil _ post) by
    (assumption || (intros c; destruct c; (discriminate || reflexivity))).
  rewrite !app_nil_r.
  repeat split.
  apply (reachable_attached mimetypes opened
           (constructor target notebook_name settings url) manager).
  apply reachable_run, reachable_mounted.
Qed.

Lemma constructor_arguments_are_used_once_witness :
  sample_opens "test.ipynb" = true ∧
  sample_accepts "jupyter-notebook-wrapper" = true ∧
  ∃ s0,
    mounted_checked sample_mimetypes sample_opened sample_opens sample_accepts
      (constructor "jupyter-notebook-wrapper" "test.ipynb" None
                   (Some "http://localhost:8889")) sample_manager = Some s0 ∧
    connection_attempts (trace (run [resize] s0))
    = [{| ajaxSettings := None; baseUrl := Some "http://localhost:8889" |}] ∧
    opened_paths (trace (run [resize] s0)) = ["test.ipynb"] ∧
    attachments (trace (run [resize] s0))
    = [(w_panel, "jupyter-notebook-wrapper")] ∧
    attached (run [resize] s0) = [(w_panel, "jupyter-notebook-wrapper")].
Proof.
  split; [reflexivity|]. split; [reflexivity|].
  exact (constructor_arguments_are_used_once sample_mimetypes sample_opened
           sample_opens sample_accepts "jupyter-notebook-wrapper" "test.ipynb"
           None (Some "http://localhost:8889") sample_manager [resize]
           eq_refl eq_refl).
Defined.

(** With a notebook that cannot be opened, or no element to attach to, the
    callback is abandoned and no mounted page comes about. *)
Lemma mounting_abandoned (mimetypes : Renderer → list string)
    (opened : string → NotebookPanel) (opens accepts : string → bool)
    (jl : JupyterLab) (manager : IServiceManager) :
  opens (NOTEBOOK jl) = false ∨ accepts (div_id jl) = false →
  mounted_checked mimetypes opened opens accepts jl manager = None.
Proof.
  unfold mounted_checked, createApp_checked. cbn [this emit page_load].
  intros [->| ->]; [reflexivity|]. now rewrite andb_false_r.
Qed.

(** ** The two mode commands *)

Section Modes.
Variable mimetypes : Renderer → list string.
Variable opened : string → NotebookPanel.
Variable jl : JupyterLab.
Variable manager : IServiceManager.

Lemma execute_editMode s nb :
  reachable mimetypes opened jl manager s → nbWidget s = Some nb →
  step (execute_command cmdIds.editMode) s
  = set_nbWidget (Some (set_mode "edit" nb)) s.
Proof.
  intros Hs Hnb.
  rewrite (execute_registered _ _ _ _ s _
             {| label := "Edit Mode"; execute := run_editMode |})
    by (exact Hs || (vm_compute; reflexivity)).
  cbn [execute call]. unfold with_nbWidget. now rewrite Hnb.
Qed.

Lemma execute_commandMode s nb :
  reachable mimetypes opened jl manager s → nbWidget s = Some nb →
  step (execute_command cmdIds.commandMode) s
  = set_nbWidget (Some (set_mode "command" nb)) s.
Proof.
  intros Hs Hnb.
  rewrite (execute_registered _ _ _ _ s _
             {| label := "Command Mode"; execute := run_commandMode |})
    by (exact Hs || (vm_compute; reflexivity)).
  cbn [execute call]. unfold with_nbWidget. now rewrite Hnb.
Qed.

(** The mode commands overwrite: of two in a row only the second counts, so
    each is idempotent and either undoes the other.  They leave the kernels
    of the widget alone and make no call. *)
Theorem mode_commands_overwrite (s : State) (nb : NotebookPanel) :
  reachable mimetypes opened jl manager s →
  nbWidget s = Some nb →
  let edit := step (execute_command cmdIds.editMode) in
  let cmd := step (execute_command cmdIds.commandMode) in
  edit (edit s) = edit s ∧ cmd (cmd s) = cmd s ∧
  edit (cmd s) = edit s ∧ cmd (edit s) = cmd s ∧
  nbWidget (edit s) =
    Some {| context_kernel := context_kernel nb; kernel := kernel nb;
            content_mode := "edit" |} ∧
  nbWidget (cmd s) =
    Some {| context_kernel := context_kernel nb; kernel := kernel nb;
            content_mode := "command" |} ∧
  trace (edit s) = trace s ∧ trace (cmd s) = trace s.
Proof.
  intros Hs Hnb edit cmd. subst edit cmd.
  assert (He : reachable mimetypes opened jl manager
                 (step (execute_command cmdIds.editMode) s)) by now constructor.
  assert (Hc : reachable mimetypes opened jl manager
                 (step (execute_command cmdIds.commandMode) s)) by now constructor.
  rewrite (execute_editMode _ _ He
             (f_equal nbWidget (execute_editMode s nb Hs Hnb))).
  rewrite (execute_commandMode _ _ He
             (f_equal nbWidget (execute_editMode s nb Hs Hnb))).
  rewrite (execute_editMode _ _ Hc
             (f_equal nbWidget (execute_commandMode s nb Hs Hnb))).
  rewrite (execute_commandMode _ _ Hc
             (f_equal nbWidget (execute_commandMode s nb Hs Hnb))).
  rewrite (execute_editMode s nb Hs Hnb), (execute_commandMode s nb Hs Hnb).
  repeat split.
Qed.

End Modes.

Lemma mode_commands_overwrite_witness :
  reachable sample_mimetypes sample_opened_live sample_jl sample_manager
    (mounted sample_mimetypes sample_opened_live sample_jl sample_manager) ∧
  nbWidget (mounted sample_mimetypes sample_opened_live sample_jl sample_manager)
    = Some (sample_opened_live "test.ipynb") ∧
  nbWidget (step (execute_command cmdIds.editMode)
              (mounted sample_mimetypes sample_opened_live sample_jl
                       sample_manager))
    = Some {| context_kernel := Some "k0"; kernel := Some "k0";
              content_mode := "edit" |}.
Proof.
  split; [apply reachable_mounted|]. split; [reflexivity|].
  exact (proj1 (proj2 (proj2 (proj2 (proj2
           (mode_commands_overwrite sample_mimetypes sample_opened_live
              sample_jl sample_manager
              (mounted sample_mimetypes sample_opened_live sample_jl
                       sample_manager)
              (sample_opened_live "test.ipynb")
              (reachable_mounted _ _ _ _) eq_refl)))))).
Defined.

(** ** References during setup *)

Lemma registered_ids_cons c l :
  registered_ids (c :: l) =
    match c with addCommand id _ => [id] | _ => [] end ++ registered_ids l.
Proof. destruct c; reflexivity. Qed.

Lemma references_resolved_sound (l : list Call) :
  ∀ (seen : list string) (i : nat) (c : Call) (id : string),
    references_resolved seen l = true →
    l !! i = Some c → referenced c = Some id →
    id ∈ seen ++ registered_ids (take i l).
Proof.
  induction l as [|c0 l IH]; intros seen i c id Hres Hi Hid; [inversion Hi|].
  cbn [references_resolved] in Hres. apply andb_prop in Hres as [Hnow Hlater].
  destruct i as [|i]; cbn in Hi.
  - injection Hi as ->. rewrite Hid in Hnow.
    apply bool_decide_eq_true in Hnow. cbn [take registered_ids omap list_omap].
    now rewrite app_nil_r.
  - specialize (IH _ i c id Hlater Hi Hid).
    cbn [take]. rewrite registered_ids_cons.
    destruct c0; cbn [app]; try exact IH.
    now rewrite <- app_assoc in IH.
Qed.

(** Setup never refers to a command before registering it: whenever a
    palette item or a key binding is added, the command id it names has
    already been passed to [addCommand]. *)
Theorem references_follow_registration (mimetypes : Renderer → list string)
    (opened : string → NotebookPanel) (jl : JupyterLab)
    (manager : IServiceManager) (i : nat) (c : Call) (id : string) :
  trace (mounted mimetypes opened jl manager) !! i = Some c →
  referenced c = Some id →
  id ∈ registered_ids (take i (trace (mounted mimetypes opened jl manager))).
Proof.
  intros Hi Hid.
  apply (references_resolved_sound _ [] i c id); [|exact Hi|exact Hid].
  vm_compute. reflexivity.
Qed.

Lemma references_follow_registration_witness :
  trace sample_page !! 56 =
    Some (addBinding {| selector := ".jp-Notebook"; keys := ["Shift Enter"];
                        command := cmdIds.runAndAdvance |}) ∧
  referenced (addBinding {| selector := ".jp-Notebook"; keys := ["Shift Enter"];
                            command := cmdIds.runAndAdvance |})
    = Some cmdIds.runAndAdvance ∧
  cmdIds.runAndAdvance ∈ registered_ids (take 56 (trace sample_page)).
Proof.
  split; [reflexivity|]. split; [reflexivity|].
  exact (references_follow_registration sample_mimetypes sample_opened
           sample_jl sample_manager 56 _ cmdIds.runAndAdvance
           eq_refl eq_refl).
Defined.

(** ** The statements above, on the page of [main] *)

Lemma palette_items_resolve_witness :
  reachable sample_mimetypes sample_opened sample_jl sample_manager sample_page ∧
  Item.make cmdIds.interrupt "Notebook Operations" ∈ palette sample_page ∧
  is_Some (commands sample_page !! cmdIds.interrupt) ∧
  NoDup (map Item.command (palette sample_page)).
Proof.
  split; [apply reachable_mounted|]. split; [left|].
  exact (palette_items_resolve sample_mimetypes sample_opened sample_jl
           sample_manager sample_page
           (Item.make cmdIds.interrupt "Notebook Operations")
           (reachable_mounted _ _ _ _) (list_elem_of_here _ _)).
Defined.

Lemma registered_commands_are_reachable_witness :
  reachable sample_mimetypes sample_opened sample_jl sample_manager sample_page ∧
  is_Some (commands sample_page !! cmdIds.save) ∧
  (cmdIds.save ∈ map Item.command (palette sample_page) ∨
   cmdIds.save ∈ map command (keymap sample_page)).
Proof.
  split; [apply reachable_mounted|].
  assert (Hsave : is_Some (commands sample_page !! cmdIds.save))
    by (vm_compute; eexists; reflexivity).
  split; [exact Hsave|].
  exact (proj1 (registered_commands_are_reachable sample_mimetypes
                  sample_opened sample_jl sample_manager sample_page
                  cmdIds.save (reachable_mounted _ _ _ _) Hsave)).
Defined.

Lemma key_chords_are_unambiguous_witness :
  reachable sample_mimetypes sample_opened sample_jl sample_manager sample_page ∧
  {| selector := ".jp-Notebook"; keys := ["Accel S"]; command := cmdIds.save |}
    ∈ keymap sample_page ∧
  {| selector := ".jp-Notebook"; keys := ["Accel S"]; command := cmdIds.save |}
  = {| selector := ".jp-Notebook"; keys := ["Accel S"]; command := cmdIds.save |}.
Proof.
  split; [apply reachable_mounted|].
  assert (Hin : {| selector := ".jp-Notebook"; keys := ["Accel S"];
                   command := cmdIds.save |} ∈ keymap sample_page)
    by (right; left).
  split; [exact Hin|].
  exact (key_chords_are_unambiguous sample_mimetypes sample_opened sample_jl
           sample_manager sample_page _ _ (reachable_mounted _ _ _ _)
           Hin Hin eq_refl).
Defined.

Lemma keydown_is_forwarded_once_witness :
  reachable sample_mimetypes sample_opened sample_jl sample_manager sample_page ∧
  step keydown sample_page = emit processKeydownEvent sample_page ∧
  listeners sample_page = [("keydown", on_keydown, true)].
Proof.
  split; [apply reachable_mounted|].
  exact (keydown_is_forwarded_once sample_mimetypes sample_opened sample_jl
           sample_manager sample_page (reachable_mounted _ _ _ _)).
Defined.
